(** * Grafana dashboard exporter: a shallow embedding

    Source: [posts/工具箱/grafana/export-grafana-dashboards.py], class
    [GrafanaExporter].

    Modelling conventions.
    - A Python [str] is the list of its Unicode code points ([len] counts
      code points, so does [length] here).
    - The value returned by [response.json()] is a [json]; Python's [None]
      is [JNull].  A dict is the list of its items (keys distinct), in
      insertion order.  JSON numbers are the integers.
    - Methods run in a state-and-exception monad [M].  The state logs the
      HTTP calls and the [time.sleep] calls and holds the file store; the
      environment [Env] holds what the program cannot control: the answer
      of the server to the k-th HTTP call and the clock.
    - File-system calls act on a store keyed by resolved paths; failures
      of the operating system (permissions, name limits, a missing parent
      directory) are outside the model.
    - Console output is not modelled, but an expression evaluated for a
      [print] is, when it can raise. *)

From Stdlib Require Import ZArith String Ascii DecimalString Lia.
From stdpp Require Import base decidable option list gmap.

Set Warnings "-register-all".
Open Scope Z_scope.

(** ** Strings *)

Definition str := list N.

(** An ASCII literal of the source. *)
Definition lit (s : string) : str :=
  (fun a => N_of_ascii a) <$> list_ascii_of_string s.

(** [str(n)] for an [int]. *)
Definition str_of_int (n : Z) : str := lit (NilZero.string_of_int (Z.to_int n)).

(** [c.upper()] on the ASCII letters.  The source only compares the result
    with 'GET' and 'POST', and every call in the program passes 'GET';
    the letters outside ASCII that Python maps to ASCII ones are left as
    they are. *)
Definition upper_char (c : N) : N :=
  if ((97 <=? c) && (c <=? 122))%N then (c - 32)%N else c.

Definition upper (s : str) : str := upper_char <$> s.

(** [sep.join(l)] *)
Fixpoint join (sep : str) (l : list str) : str :=
  match l with
  | [] => []
  | [x] => x
  | x :: rest => x ++ sep ++ join sep rest
  end.

(** [s.split(c)] for a one-character separator. *)
Fixpoint split_on (c : N) (s : str) : list str :=
  match s with
  | [] => [[]]
  | x :: rest =>
      if bool_decide (x = c) then [] :: split_on c rest
      else match split_on c rest with
           | [] => [[x]]
           | w :: ws => (x :: w) :: ws
           end
  end.

(** ** JSON values and the Python operations the program applies to them *)

Inductive json :=
| JNull
| JBool (b : bool)
| JNum (n : Z)
| JStr (s : str)
| JArr (l : list json)
| JObj (items : list (str * json)).

(** Truth value of [if v:] *)
Definition truthy (v : json) : bool :=
  match v with
  | JNull => false
  | JBool b => b
  | JNum n => negb (n =? 0)
  | JStr s => negb (bool_decide (s = []))
  | JArr l => match l with [] => false | _ => true end
  | JObj items => match items with [] => false | _ => true end
  end.

Fixpoint assoc (k : str) (items : list (str * json)) : option json :=
  match items with
  | [] => None
  | (k', v) :: rest => if bool_decide (k' = k) then Some v else assoc k rest
  end.

(** [v == s] for a string [s] *)
Definition eq_str (v : json) (s : str) : bool :=
  match v with
  | JStr t => bool_decide (t = s)
  | _ => false
  end.

(** ** Sanitised file names *)

(** The character class of the [re.sub] call, by code point:
    [<] [>] [:] the double quote [/] the backslash [|] [?] [*]. *)
Definition unsafe_chars : list N := [60; 62; 58; 34; 47; 92; 124; 63; 42]%N.

Definition is_unsafe (c : N) : bool := bool_decide (c ∈ unsafe_chars).

Definition underscore : N := 95%N.

Definition safe_filename (name : str) : str :=
  let safe_name := (fun c => if is_unsafe c then underscore else c) <$> name in
  if (100 <? length safe_name)%nat then take 100 safe_name else safe_name.

(** ** Paths: [pathlib] on POSIX *)

(** A path is the list of its parts; an absolute path starts with the part
    [/]. *)
Definition Path := list str.

Definition slash : N := 47%N.
Definition dot : str := [46%N].
Definition dotdot : str := [46%N; 46%N].
Definition root_part : str := [slash].

(** The parts a string contributes: empty parts and [.] are dropped, [..]
    is kept. *)
Definition path_parts (s : str) : list str :=
  filter (fun c => c <> [] /\ c <> dot) (split_on slash s).

(** [p / s].  A string that starts with a slash replaces [p] (a leading
    double slash is not told apart from a single one). *)
Definition joinpath (p : Path) (s : str) : Path :=
  match s with
  | c :: _ => if bool_decide (c = slash) then root_part :: path_parts s
              else p ++ path_parts s
  | [] => p
  end.

Definition path_name (p : Path) : str := default [] (last p).
Definition path_parent (p : Path) : Path := take (length p - 1)%nat p.

(** What the operating system makes of [..]: it steps back to the
    parent, except at the root and at the start of a relative path. *)
Fixpoint resolve_from (rev_stack : list str) (p : Path) : Path :=
  match p with
  | [] => reverse rev_stack
  | c :: rest =>
      if bool_decide (c = dotdot) then
        match rev_stack with
        | [] => resolve_from [c] rest
        | top :: below =>
            if bool_decide (top = root_part) then resolve_from rev_stack rest
            else if bool_decide (top = dotdot) then resolve_from (c :: rev_stack) rest
            else resolve_from below rest
        end
      else resolve_from (c :: rev_stack) rest
  end.

Definition resolve (p : Path) : Path := resolve_from [] p.

Fixpoint starts_with (p s : str) : bool :=
  match p, s with
  | [], _ => true
  | _ :: _, [] => false
  | x :: p', y :: s' => bool_decide (x = y) && starts_with p' s'
  end.

(** [p in s] for two strings *)
Fixpoint contains (p s : str) : bool :=
  starts_with p s ||
  match s with
  | [] => false
  | _ :: s' => contains p s'
  end.

Definition ends_with (suffix s : str) : bool :=
  starts_with (reverse suffix) (reverse s).

(** The pattern [*.json] of [glob] and [rglob]. *)
Definition is_json_name (name : str) : bool := ends_with (lit ".json") name.

(** Order of [sorted] on paths: part by part. *)
Fixpoint str_cmp (a b : str) : comparison :=
  match a, b with
  | [], [] => Eq
  | [], _ :: _ => Lt
  | _ :: _, [] => Gt
  | x :: a', y :: b' =>
      match (x ?= y)%N with
      | Eq => str_cmp a' b'
      | c => c
      end
  end.

Fixpoint path_cmp (p q : Path) : comparison :=
  match p, q with
  | [], [] => Eq
  | [], _ :: _ => Lt
  | _ :: _, [] => Gt
  | x :: p', y :: q' =>
      match str_cmp x y with
      | Eq => path_cmp p' q'
      | c => c
      end
  end.

Definition path_leb (p q : Path) : bool :=
  match path_cmp p q with Gt => false | _ => true end.

Fixpoint insert_sorted (p : Path) (l : list Path) : list Path :=
  match l with
  | [] => [p]
  | q :: rest => if path_leb p q then p :: l else q :: insert_sorted p rest
  end.

Definition sorted (l : list Path) : list Path := foldr insert_sorted [] l.

(** ** The world: HTTP server, clock, file store *)

Inductive Method := GET | POST.

(** One call of [session.get] or [session.post]; the URL requested is
    [urljoin(rq_base, rq_endpoint)]. *)
Record Request := mkRequest {
  rq_method : Method;
  rq_base : str;
  rq_endpoint : str;
  rq_body : json;
}.

(** What one HTTP call does: it raises a [RequestException] (no
    connection, time-out), or it returns a response with a status and a
    body, which is JSON text or not. *)
Inductive http_outcome :=
| ConnectionFailed
| Response (status : Z) (body : option json).

Record Env := mkEnv {
  (** answer to the k-th HTTP call of the run (k counts from 0) *)
  http_answer : nat -> Request -> http_outcome;
  (** [datetime.now()] at the k-th reading, already formatted *)
  now : nat -> str;
  (** [str(v)] for a list or a dict *)
  repr : json -> str;
}.

(** One [f.write] of [generate_report]. *)
Inductive report_line :=
| RTitle
| RExportTime (t : str)
| RUrl (u : str)
| RExportDir (d : Path)
| RStatsHeading
| RTableHeader
| RTableRule
| RRowFolders (n : Z)
| RRowTotal (n : Z)
| RRowExported (n : Z)
| RRowFailed (n : Z)
(** [exported_count/total_count*100] to one decimal; [total] is not 0 *)
| RRowRate (exported total : Z)
| RStructureHeading
| RFolderCount (title : str) (dashboard_count : Z)
| RListHeading
| RFolderHeading (name : str)
| RFileEntry (name : str)
| RBlank
| ROtherHeading.

(** What a file holds: the value passed to [json.dump], or the lines of
    the report. *)
Inductive content :=
| FJson (j : json)
| FReport (lines : list report_line).

Record State := mkState {
  requests : list Request;     (* HTTP calls so far, oldest first *)
  sleeps : list Z;             (* arguments of [time.sleep], oldest first *)
  ticks : nat;                 (* readings of the clock *)
  dirs : gset Path;            (* directories, by resolved path *)
  files : gmap Path content;   (* regular files, by resolved path *)
}.

Inductive exn :=
| ValueError
| AttributeError
| TypeError
| KeyError
| ZeroDivisionError.

Inductive result (A : Type) :=
| Ret (a : A)
| Raise (e : exn).
Arguments Ret {A} a.
Arguments Raise {A} e.

Definition M (A : Type) : Type := State -> result A * State.

Definition ret {A} (a : A) : M A := fun st => (Ret a, st).
Definition raise {A} (e : exn) : M A := fun st => (Raise e, st).
Definition bind {A B} (m : M A) (k : A -> M B) : M B :=
  fun st =>
    match m st with
    | (Ret a, st') => k a st'
    | (Raise e, st') => (Raise e, st')
    end.

Notation "'let*' x ':=' m 'in' k" := (bind m (fun x => k))
  (at level 10, x name, m at level 100, k at level 200).
Notation "'let*' '_' ':=' m 'in' k" := (bind m (fun _ => k))
  (at level 10, m at level 100, k at level 200).

(** *** Python operations on values of unknown shape *)

Definition is_none (v : json) : bool :=
  match v with JNull => true | _ => false end.

(** [v[k]] *)
Definition getitem (v : json) (k : str) : M json :=
  match v with
  | JObj items =>
      match assoc k items with
      | Some x => ret x
      | None => raise KeyError
      end
  | _ => raise TypeError
  end.

(** [v.get(k, d)] *)
Definition py_get (v : json) (k : str) (d : json) : M json :=
  match v with
  | JObj items => ret (default d (assoc k items))
  | _ => raise AttributeError
  end.

(** [len(v)] *)
Definition py_len (v : json) : M Z :=
  match v with
  | JStr s => ret (Z.of_nat (length s))
  | JArr l => ret (Z.of_nat (length l))
  | JObj items => ret (Z.of_nat (length items))
  | _ => raise TypeError
  end.

(** [k in v] *)
Definition py_in (k : str) (v : json) : M bool :=
  match v with
  | JObj items => ret (bool_decide (is_Some (assoc k items)))
  | JArr l => ret (existsb (fun x => eq_str x k) l)
  | JStr s => ret (contains k s)
  | _ => raise TypeError
  end.

(** [for x in v] *)
Definition py_iter (v : json) : M (list json) :=
  match v with
  | JArr l => ret l
  | JObj items => ret ((fun kv => JStr (fst kv)) <$> items)
  | JStr s => ret ((fun c => JStr [c]) <$> s)
  | _ => raise TypeError
  end.

(** [v.insert(0, x)] *)
Definition py_insert0 (v x : json) : M (list json) :=
  match v with
  | JArr l => ret (x :: l)
  | _ => raise AttributeError
  end.

(** [re.sub] accepts a string only. *)
Definition safe_filename_of (v : json) : M str :=
  match v with
  | JStr s => ret (safe_filename s)
  | _ => raise TypeError
  end.

(** Truth value of an optional command-line string. *)
Definition truthy_opt (o : option str) : bool :=
  match o with
  | Some (_ :: _) => true
  | _ => false
  end.

(** [f"{v}"] *)
Definition format (repr : json -> str) (v : json) : str :=
  match v with
  | JStr s => s
  | JNum n => str_of_int n
  | JBool true => lit "True"
  | JBool false => lit "False"
  | JNull => lit "None"
  | _ => repr v
  end.

(** *** Effects *)

Definition send (answer : nat -> Request -> http_outcome) (rq : Request)
  : M http_outcome :=
  fun st =>
    (Ret (answer (length (requests st)) rq),
     mkState (requests st ++ [rq]) (sleeps st) (ticks st) (dirs st) (files st)).

Definition sleep (t : Z) : M unit :=
  fun st =>
    (Ret tt,
     mkState (requests st) (sleeps st ++ [t]) (ticks st) (dirs st) (files st)).

Definition read_clock (clock : nat -> str) : M str :=
  fun st =>
    (Ret (clock (ticks st)),
     mkState (requests st) (sleeps st) (S (ticks st)) (dirs st) (files st)).

(** [p.mkdir(exist_ok=True)] *)
Definition mkdir (p : Path) : M unit :=
  fun st =>
    (Ret tt,
     mkState (requests st) (sleeps st) (ticks st)
             ({[resolve p]} ∪ dirs st) (files st)).

(** [open(p, 'w')] followed by the writes that give the file content [c] *)
Definition write_file (p : Path) (c : content) : M unit :=
  fun st =>
    (Ret tt,
     mkState (requests st) (sleeps st) (ticks st) (dirs st)
             (<[resolve p := c]> (files st))).

Definition append_line (l : report_line) (c : content) : content :=
  match c with
  | FReport lines => FReport (lines ++ [l])
  | other => other
  end.

(** [f.write(...)] on the report opened at [p] *)
Definition f_write (p : Path) (l : report_line) : M unit :=
  fun st =>
    (Ret tt,
     mkState (requests st) (sleeps st) (ticks st) (dirs st)
             (alter (append_line l) (resolve p) (files st))).

(** Everything the store holds, by resolved path. *)
Definition entries (st : State) : gset Path := dirs st ∪ dom (files st).

Definition is_dir (st : State) (p : Path) : bool :=
  bool_decide (resolve p ∈ dirs st).

Definition path_exists (st : State) (p : Path) : bool :=
  bool_decide (resolve p ∈ entries st).

(** The entries strictly below [d], each as [d] followed by the parts
    that lead to it. *)
Definition below (st : State) (d : Path) : list Path :=
  let base := resolve d in
  (fun k => d ++ drop (length base) k) <$>
    filter (fun k => take (length base) k = base /\ (length base < length k)%nat)
           (elements (entries st)).

(** [d.iterdir()] *)
Definition iterdir (st : State) (d : Path) : list Path :=
  filter (fun p => length p = S (length d)) (below st d).

(** [d.glob("*.json")] *)
Definition glob_json (st : State) (d : Path) : list Path :=
  filter (fun p => is_json_name (path_name p) = true) (iterdir st d).

(** [d.rglob("*.json")] *)
Definition rglob_json (st : State) (d : Path) : list Path :=
  filter (fun p => is_json_name (path_name p) = true) (below st d).

Definition get_state : M State := fun st => (Ret st, st).

(** ** The exporter *)

Record GrafanaExporter := mkExporter {
  url : str;
  api_key : str;
  output_dir : Path;
  timeout : Z;
  export_dir : Path;
}.

Section Exporter.

Context (env : Env) (self : GrafanaExporter).

Definition classify_method (method : str) : option Method :=
  if bool_decide (upper method = lit "GET") then Some GET
  else if bool_decide (upper method = lit "POST") then Some POST
  else None.

(** The [try] block of one attempt: [None] when a [RequestException] is
    raised, by the call itself, by [raise_for_status] on a status from 400
    to 599, or by [response.json()] on a body that is not JSON (the
    [JSONDecodeError] of [requests] 2.27 and later is a
    [RequestException]). *)
Definition attempt_result (o : http_outcome) : option json :=
  match o with
  | ConnectionFailed => None
  | Response status body =>
      if (400 <=? status) && (status <? 600) then None else body
  end.

(** The call made for a method: [session.get(url)] carries no body,
    [session.post(url, json=data)] carries [data]. *)
Definition request_of (m : Method) (endpoint : str) (data : json) : Request :=
  match m with
  | GET => mkRequest GET (url self) endpoint JNull
  | POST => mkRequest POST (url self) endpoint data
  end.

(** The iterations of [for attempt in range(retries)] that remain, from
    [attempt] on. *)
Fixpoint api_request_from (remaining : nat) (attempt : Z)
    (endpoint method : str) (data : json) (retries : Z) : M json :=
  match remaining with
  | O => ret JNull
  | S remaining' =>
      match classify_method method with
      | None => raise ValueError
      | Some m =>
          let* o := send (http_answer env) (request_of m endpoint data) in
          match attempt_result o with
          | Some parsed => ret parsed
          | None =>
              if attempt =? retries - 1 then ret JNull
              else
                let* _ := sleep (2 ^ attempt) in
                api_request_from remaining' (attempt + 1) endpoint method data retries
          end
      end
  end.

Definition api_request (endpoint method : str) (data : json) (retries : Z)
  : M json :=
  api_request_from (Z.to_nat retries) 0 endpoint method data retries.

(** [self.api_request(endpoint)] with the default arguments *)
Definition api_get (endpoint : str) : M json :=
  api_request endpoint (lit "GET") JNull 3.

Definition test_connection : M bool :=
  let* user_info := api_get (lit "/api/user") in
  if truthy user_info then
    let* _ := py_get user_info (lit "login") (JStr (lit "unknown")) in
    let* _ := py_get user_info (lit "orgId") (JStr (lit "unknown")) in
    let* _ := py_get user_info (lit "role") (JStr (lit "unknown")) in
    ret true
  else ret false.

(** The synthetic root folder. *)
Definition root_folder : json :=
  JObj [ (lit "id", JNum 0);
         (lit "uid", JStr []);
         (lit "title", JStr (lit "General"));
         (lit "url", JStr []);
         (lit "hasAcl", JBool false);
         (lit "canSave", JBool true);
         (lit "canEdit", JBool true);
         (lit "canAdmin", JBool true);
         (lit "version", JNum 1) ].

Definition get_folders : M (list json) :=
  let* folders := api_get (lit "/api/folders") in
  if negb (is_none folders) then
    let* folders := py_insert0 folders root_folder in
    let folders_file := joinpath (export_dir self) (lit "folders.json") in
    let* _ := write_file folders_file (FJson (JArr folders)) in
    ret folders
  else ret [].

Definition get_dashboards (folder_id : json) (tag : option str) : M json :=
  let params := [lit "type=dash-db"] in
  let params :=
    if negb (is_none folder_id)
    then params ++ [lit "folderIds=" ++ format (repr env) folder_id]
    else params in
  let params :=
    if truthy_opt tag then params ++ [lit "tag=" ++ default [] tag] else params in
  let endpoint := lit "/api/search?" ++ join (lit "&") params in
  let* dashboards := api_get endpoint in
  if negb (is_none dashboards) then
    let* _ := py_len dashboards in
    ret dashboards
  else ret (JArr []).

Definition get_dashboard_permissions (dashboard_uid : json) : M json :=
  api_get (lit "/api/dashboards/uid/" ++ format (repr env) dashboard_uid
           ++ lit "/permissions").

(** The file name [f"{safe_title}_{uid}.json"] *)
Definition dashboard_filename (safe_title : str) (uid : json) : str :=
  safe_title ++ lit "_" ++ format (repr env) uid ++ lit ".json".

Definition export_dashboard (dashboard_info : json) (include_permissions : bool)
  : M bool :=
  let* uid := getitem dashboard_info (lit "uid") in
  let* title := getitem dashboard_info (lit "title") in
  let* folder_title :=
    py_get dashboard_info (lit "folderTitle") (JStr (lit "General")) in
  let* safe_folder := safe_filename_of folder_title in
  let folder_dir := joinpath (export_dir self) safe_folder in
  let* _ := mkdir folder_dir in
  let* dashboard_data :=
    api_get (lit "/api/dashboards/uid/" ++ format (repr env) uid) in
  let* has_dashboard :=
    if truthy dashboard_data then py_in (lit "dashboard") dashboard_data
    else ret false in
  if has_dashboard then
    let* safe_title := safe_filename_of title in
    let filename := joinpath folder_dir (dashboard_filename safe_title uid) in
    let* dashboard := getitem dashboard_data (lit "dashboard") in
    let* meta := py_get dashboard_data (lit "meta") (JObj []) in
    let* export_time := read_clock (now env) in
    let export_data :=
      [ (lit "dashboard", dashboard);
        (lit "meta", meta);
        (lit "folderTitle", folder_title);
        (lit "exportTime", JStr export_time) ] in
    let* export_data :=
      if include_permissions then
        let* permissions := get_dashboard_permissions uid in
        if truthy permissions
        then ret (export_data ++ [(lit "permissions", permissions)])
        else ret export_data
      else ret export_data in
    let* _ := write_file filename (FJson (JObj export_data)) in
    ret true
  else ret false.

Definition export_datasources : M bool :=
  let* datasources := api_get (lit "/api/datasources") in
  if truthy datasources then
    let datasources_file := joinpath (export_dir self) (lit "datasources.json") in
    let* _ := write_file datasources_file (FJson datasources) in
    let* _ := py_len datasources in
    ret true
  else ret false.

Definition export_alerts : M bool :=
  let* alerts := api_get (lit "/api/alerts") in
  if truthy alerts then
    let alerts_file := joinpath (export_dir self) (lit "alerts.json") in
    let* _ := write_file alerts_file (FJson alerts) in
    let* _ := py_len alerts in
    ret true
  else ret false.

Definition config_names : list str :=
  [lit "folders.json"; lit "datasources.json"; lit "alerts.json"].

Fixpoint write_lines (report_file : Path) (lines : list report_line) : M unit :=
  match lines with
  | [] => ret tt
  | l :: rest =>
      let* _ := f_write report_file l in
      write_lines report_file rest
  end.

(** The loop [for folder in folders] of the report. *)
Fixpoint report_folders (report_file : Path) (folders : list json) : M unit :=
  match folders with
  | [] => ret tt
  | folder :: rest =>
      let* title := getitem folder (lit "title") in
      let* folder_name := safe_filename_of title in
      let folder_path := joinpath (export_dir self) folder_name in
      let* st := get_state in
      let* _ :=
        if path_exists st folder_path then
          let dashboard_count := Z.of_nat (length (glob_json st folder_path)) in
          f_write report_file (RFolderCount (format (repr env) title) dashboard_count)
        else ret tt in
      report_folders report_file rest
  end.

(** The loop [for folder_dir in sorted(folder_dirs)] of the report. *)
Fixpoint report_listing (report_file : Path) (folder_dirs : list Path) : M unit :=
  match folder_dirs with
  | [] => ret tt
  | folder_dir :: rest =>
      let* _ := f_write report_file (RFolderHeading (path_name folder_dir)) in
      let* st := get_state in
      let dashboard_files_in_folder := sorted (glob_json st folder_dir) in
      let* _ :=
        write_lines report_file
          ((fun file => RFileEntry (path_name file)) <$> dashboard_files_in_folder) in
      let* _ := f_write report_file RBlank in
      report_listing report_file rest
  end.

Definition generate_report (exported_count total_count : Z) (folders : list json)
  : M unit :=
  let report_file := joinpath (export_dir self) (lit "export_report.md") in
  let* st := get_state in
  let folder_dirs := filter (fun d => is_dir st d = true) (iterdir st (export_dir self)) in
  let json_files := rglob_json st (export_dir self) in
  let dashboard_files :=
    filter (fun f => path_name f ∉ config_names) json_files in
  (* with open(report_file, 'w') as f: *)
  let* _ := write_file report_file (FReport []) in
  let* _ := f_write report_file RTitle in
  let* export_time := read_clock (now env) in
  let* _ := f_write report_file (RExportTime export_time) in
  let* _ := f_write report_file (RUrl (url self)) in
  let* _ := f_write report_file (RExportDir (export_dir self)) in
  let* _ := f_write report_file RStatsHeading in
  let* _ := f_write report_file RTableHeader in
  let* _ := f_write report_file RTableRule in
  let* _ := f_write report_file (RRowFolders (Z.of_nat (length folders))) in
  let* _ := f_write report_file (RRowTotal total_count) in
  let* _ := f_write report_file (RRowExported exported_count) in
  let* _ := f_write report_file (RRowFailed (total_count - exported_count)) in
  let* _ :=
    if total_count =? 0 then raise ZeroDivisionError
    else f_write report_file (RRowRate exported_count total_count) in
  let* _ := f_write report_file RStructureHeading in
  let* _ := report_folders report_file folders in
  let* _ := f_write report_file RListHeading in
  let* _ := report_listing report_file (sorted folder_dirs) in
  let other_files :=
    filter (fun f => path_parent f = export_dir self) json_files in
  match other_files with
  | [] => ret tt
  | _ =>
      let* _ := f_write report_file ROtherHeading in
      write_lines report_file
        ((fun file => RFileEntry (path_name file)) <$> sorted other_files)
  end.

(** The loop [for folder in folders] of [export_all]: the id of the first
    folder with the title [folder_filter], [None] when there is none. *)
Fixpoint find_folder_id (folders : list json) (folder_filter : str) : M json :=
  match folders with
  | [] => ret JNull
  | folder :: rest =>
      let* title := getitem folder (lit "title") in
      if eq_str title folder_filter then getitem folder (lit "id")
      else find_folder_id rest folder_filter
  end.

(** The loop [for i, dashboard in enumerate(dashboards, 1)]. *)
Fixpoint export_each (dashboards : list json) (include_permissions : bool)
    (exported_count : Z) : M Z :=
  match dashboards with
  | [] => ret exported_count
  | dashboard :: rest =>
      let* ok := export_dashboard dashboard include_permissions in
      export_each rest include_permissions
        (if ok then exported_count + 1 else exported_count)
  end.

(** [export_all] from [if not dashboards:] on. *)
Definition export_found (dashboards : json) (folders : list json)
    (include_permissions : bool) : M bool :=
  if negb (truthy dashboards) then ret false
  else
    let* items := py_iter dashboards in
    let* exported_count := export_each items include_permissions 0 in
    let* total_count := py_len dashboards in
    let* _ := generate_report exported_count total_count folders in
    ret true.

Definition export_all (include_permissions include_datasources include_alerts : bool)
    (folder_filter tag_filter : option str) : M bool :=
  let* connected := test_connection in
  if negb connected then ret false
  else
    let* folders := get_folders in
    let* _ := if include_datasources then export_datasources else ret false in
    let* _ := if include_alerts then export_alerts else ret false in
    if truthy_opt folder_filter then
      let* folder_id := find_folder_id folders (default [] folder_filter) in
      if is_none folder_id then ret false
      else
        let* dashboards := get_dashboards folder_id tag_filter in
        export_found dashboards folders include_permissions
    else
      let* dashboards := get_dashboards JNull tag_filter in
      export_found dashboards folders include_permissions.

End Exporter.

(** [s.rstrip('/')] *)
Fixpoint lstrip_char (c : N) (s : str) : str :=
  match s with
  | x :: rest => if bool_decide (x = c) then lstrip_char c rest else s
  | [] => []
  end.

Definition rstrip_slash (s : str) : str :=
  reverse (lstrip_char slash (reverse s)).

(** [p.mkdir(parents=True, exist_ok=True)] *)
Definition mkdir_parents (p : Path) : M unit :=
  fun st =>
    let q := resolve p in
    (Ret tt,
     mkState (requests st) (sleeps st) (ticks st)
             (list_to_set ((fun n => take n q) <$> seq 1 (length q)) ∪ dirs st)
             (files st)).

(** [GrafanaExporter.__init__]: the session directory is named after the
    time of creation and made with its parents. *)
Definition new_exporter (env : Env) (url api_key output_dir : str) (timeout : Z)
  : M GrafanaExporter :=
  let output_dir := joinpath [] output_dir in
  let* timestamp := read_clock (now env) in
  let export_dir := joinpath output_dir (lit "export_" ++ timestamp) in
  let* _ := mkdir_parents export_dir in
  ret (mkExporter (rstrip_slash url) api_key output_dir timeout export_dir).

(** The state of the world before the program starts, on an empty store. *)
Definition initial_state : State := mkState [] [] 0 ∅ ∅.

(** ** Vocabulary of the specification *)

(** The attempt numbered [i], counted from the state [st], fails: a
    [RequestException] is raised in the [try] block. *)
Definition fails_at (env : Env) (st : State) (rq : Request) (i : nat) : Prop :=
  attempt_result (http_answer env (length (requests st) + i) rq) = None.

(** The waits after [k] failed attempts, the first of them numbered
    [attempt]. *)
Definition backoff (attempt : Z) (k : nat) : list Z :=
  (fun i => 2 ^ (attempt + Z.of_nat i)) <$> seq 0 k.

(** The state after [k] calls [rq] and the sleeps [waits]. *)
Definition after_attempts (st : State) (rq : Request) (k : nat) (waits : list Z)
  : State :=
  mkState (requests st ++ replicate k rq) (sleeps st ++ waits)
          (ticks st) (dirs st) (files st).

(** An entry that stands for the root folder: id 0, empty uid, title
    'General'. *)
Definition is_root_folder (folder : json) : bool :=
  match folder with
  | JObj items =>
      match assoc (lit "id") items, assoc (lit "uid") items, assoc (lit "title") items with
      | Some (JNum 0), Some (JStr []), Some (JStr t) => bool_decide (t = lit "General")
      | _, _, _ => false
      end
  | _ => false
  end.

Definition root_count (folders : list json) : nat :=
  length (filter (fun folder => is_root_folder folder = true) folders).

(** The root folder is there exactly once, and first. *)
Definition root_first_once (folders : list json) : Prop :=
  is_root_folder <$> head folders = Some true /\ root_count folders = 1%nat.

(** A name that [pathlib] keeps as one part and the operating system
    takes as an entry of the directory. *)
Definition proper_name (s : str) : Prop :=
  s <> [] /\ s <> dot /\ s <> dotdot /\ slash ∉ s.

(** The path [export_dashboard] opens for a dashboard. *)
Definition dashboard_path (env : Env) (self : GrafanaExporter)
    (folder_title title : str) (uid : json) : Path :=
  joinpath (joinpath (export_dir self) (safe_filename folder_title))
           (dashboard_filename env (safe_filename title) uid).

(** A call that fetches a dashboard (its detail or its permissions). *)
Definition is_detail_fetch (rq : Request) : bool :=
  starts_with (lit "/api/dashboards/uid/") (rq_endpoint rq).

Definition detail_fetches (st : State) : list Request :=
  filter (fun rq => is_detail_fetch rq = true) (requests st).

(** The path of [export_report.md], and where it is stored. *)
Definition report_path (self : GrafanaExporter) : Path :=
  joinpath (export_dir self) (lit "export_report.md").

Definition report_key (self : GrafanaExporter) : Path :=
  resolve (report_path self).

(** From [st] to [st'] no dashboard was fetched and the report was not
    written. *)
Definition quiet (self : GrafanaExporter) (st st' : State) : Prop :=
  detail_fetches st' = detail_fetches st /\
  files st' !! report_key self = files st !! report_key self.

(** The run passes the connectivity check, discovers [folders] and
    exports datasources and alert rules as asked, without an exception. *)
Definition reaches_discovery (env : Env) (self : GrafanaExporter)
    (include_datasources include_alerts : bool)
    (st : State) (folders : list json) (st4 : State) : Prop :=
  exists st1 st2 b1 st3 b2,
    test_connection env self st = (Ret true, st1) /\
    get_folders env self st1 = (Ret folders, st2) /\
    (if include_datasources then export_datasources env self else ret false) st2
      = (Ret b1, st3) /\
    (if include_alerts then export_alerts env self else ret false) st3
      = (Ret b2, st4).

(** No folder of the list has the title [name]. *)
Definition folder_absent (name : str) (folders : list json) : Prop :=
  forall folder, folder ∈ folders ->
    exists items title,
      folder = JObj items /\ assoc (lit "title") items = Some title /\
      eq_str title name = false.

(** The three conditions that end the run: the connectivity check fails;
    the folder filter names a folder that the folder list does not hold;
    the dashboard list is empty. *)
Inductive fatal_condition (env : Env) (self : GrafanaExporter)
    (include_datasources include_alerts : bool)
    (folder_filter tag_filter : option str) (st : State) : State -> Prop :=
| connection_failed st1 :
    test_connection env self st = (Ret false, st1) ->
    fatal_condition env self include_datasources include_alerts
                    folder_filter tag_filter st st1
| folder_not_found folders st4 name :
    reaches_discovery env self include_datasources include_alerts st folders st4 ->
    folder_filter = Some name -> name <> [] ->
    folder_absent name folders ->
    fatal_condition env self include_datasources include_alerts
                    folder_filter tag_filter st st4
| no_dashboard_unfiltered folders st4 st5 :
    reaches_discovery env self include_datasources include_alerts st folders st4 ->
    truthy_opt folder_filter = false ->
    get_dashboards env self JNull tag_filter st4 = (Ret (JArr []), st5) ->
    fatal_condition env self include_datasources include_alerts
                    folder_filter tag_filter st st5
| no_dashboard_in_folder folders st4 name folder_id st5 :
    reaches_discovery env self include_datasources include_alerts st folders st4 ->
    folder_filter = Some name -> name <> [] ->
    find_folder_id folders name st4 = (Ret folder_id, st4) ->
    is_none folder_id = false ->
    get_dashboards env self folder_id tag_filter st4 = (Ret (JArr []), st5) ->
    fatal_condition env self include_datasources include_alerts
                    folder_filter tag_filter st st5.



(** The lines of the report down to the row of failures, and the row of
    the success rate. *)
Definition summary_head (self : GrafanaExporter) (export_time : str)
    (folders total_count exported_count : Z) : list report_line :=
  [ RTitle; RExportTime export_time; RUrl (url self); RExportDir (export_dir self);
    RStatsHeading; RTableHeader; RTableRule;
    RRowFolders folders; RRowTotal total_count; RRowExported exported_count;
    RRowFailed (total_count - exported_count) ].

Definition summary_rows (self : GrafanaExporter) (export_time : str)
    (folders total_count exported_count : Z) : list report_line :=
  summary_head self export_time folders total_count exported_count ++
  [RRowRate exported_count total_count].

(** The lines of [export_report.md] in a state. *)
Definition report_lines (self : GrafanaExporter) (st : State) : list report_line :=
  match files st !! report_key self with
  | Some (FReport lines) => lines
  | _ => []
  end.



(** ** Vocabulary of the proofs *)

(** [wp m Q st]: the run of [m] from [st] ends with a result and in a
    state that satisfy [Q]. *)
Definition wp {A} (m : M A) (Q : result A -> State -> Prop) (st : State) : Prop :=
  Q (fst (m st)) (snd (m st)).


(** [keeps R bad m]: every run of [m] relates the state before to the
    state after by [R], and raises no exception in [bad]. *)
Definition keeps (R : State -> State -> Prop) (bad : exn -> Prop)
    {A} (m : M A) : Prop :=
  forall st r st', m st = (r, st') ->
    R st st' /\ (forall e, r = Raise e -> ~ bad e).

(** No exception at all. *)
Definition no_exn (e : exn) : Prop := False.

(** Any step at all. *)
Definition any_step (st st' : State) : Prop := True.

(** The exception of a division by zero. *)
Definition is_division_error (e : exn) : Prop := e = ZeroDivisionError.

(** No run of [m] raises [ZeroDivisionError]. *)
Definition never_divides {A} (m : M A) : Prop :=
  keeps any_step is_division_error m.

(** The report only grows, and nothing else changes but the clock. *)
Definition report_grows (self : GrafanaExporter) (st st' : State) : Prop :=
  requests st' = requests st /\ sleeps st' = sleeps st /\ dirs st' = dirs st /\
  forall lines, files st !! report_key self = Some (FReport lines) ->
    exists rest, files st' !! report_key self = Some (FReport (lines ++ rest)).

(** ** Sample worlds

    Small servers and a session to run the exporter on. *)

Definition sample_clock (k : nat) : str := lit "20240101_00000" ++ str_of_int (Z.of_nat k).

Definition no_repr (v : json) : str := lit "?".

(** A server that refuses the first [k] calls and then answers every call
    with status 200 and the body [j]. *)
Definition flaky_server (k : nat) (j : json) (i : nat) (rq : Request) : http_outcome :=
  if (i <? k)%nat then ConnectionFailed else Response 200 (Some j).

(** A server that cannot be reached. *)
Definition down_server (i : nat) (rq : Request) : http_outcome := ConnectionFailed.

(** A server that answers every call with status 200 and the body [j]. *)
Definition steady_env (j : json) : Env :=
  mkEnv (flaky_server 0 j) sample_clock no_repr.

Definition sample_user : json := JObj [(lit "login", JStr (lit "admin"))].

Definition flaky_env : Env := mkEnv (flaky_server 2 sample_user) sample_clock no_repr.
Definition down_env : Env := mkEnv down_server sample_clock no_repr.

Definition sample_self : GrafanaExporter :=
  mkExporter (lit "http://localhost:3000") (lit "secret")
             [lit "grafana-exports"] 30
             [lit "grafana-exports"; lit "export_20240101_000000"].

(** The state [__init__] leaves on an empty store. *)
Definition sample_state : State :=
  mkState [] [] 1
          {[ [lit "grafana-exports"];
             [lit "grafana-exports"; lit "export_20240101_000000"] ]}
          ∅.

(** A search result, and a server that answers every call with a
    dashboard. *)
Definition sample_dashboard (uid title : string) (folder_title : option str) : json :=
  JObj ([(lit "uid", JStr (lit uid)); (lit "title", JStr (lit title))] ++
        match folder_title with
        | Some f => [(lit "folderTitle", JStr f)]
        | None => []
        end).

Definition sample_detail : json :=
  JObj [(lit "dashboard", JObj [(lit "panels", JArr [])])].

Definition dashboard_env : Env := steady_env sample_detail.

(** A small Grafana: one folder 'Ops' besides the root, one datasource,
    no alert endpoint, three dashboards of which [b] cannot be fetched. *)
Definition ops_folder : json :=
  JObj [(lit "id", JNum 7); (lit "uid", JStr (lit "ops")); (lit "title", JStr (lit "Ops"))].

Definition mock_dashboards : list json :=
  [ sample_dashboard "a" "Load" (Some (lit "Ops"));
    sample_dashboard "b" "Disk" (Some (lit "Ops"));
    sample_dashboard "c" "Home" None ].

Definition mock_server (i : nat) (rq : Request) : http_outcome :=
  let endpoint := rq_endpoint rq in
  if bool_decide (endpoint = lit "/api/user") then Response 200 (Some sample_user)
  else if bool_decide (endpoint = lit "/api/folders")
       then Response 200 (Some (JArr [ops_folder]))
  else if bool_decide (endpoint = lit "/api/datasources")
       then Response 200 (Some (JArr [JObj [(lit "name", JStr (lit "prometheus"))]]))
  else if bool_decide (endpoint = lit "/api/alerts") then Response 404 None
  else if bool_decide (endpoint = lit "/api/search?type=dash-db")
       then Response 200 (Some (JArr mock_dashboards))
  else if starts_with (lit "/api/search?") endpoint then Response 200 (Some (JArr []))
  else if bool_decide (endpoint = lit "/api/dashboards/uid/b") then Response 500 None
  else if starts_with (lit "/api/dashboards/uid/") endpoint
       then Response 200 (Some sample_detail)
  else Response 404 None.

Definition mock_env : Env := mkEnv mock_server sample_clock no_repr.

(** The state in which the small Grafana is left by the connectivity
    check, the folder discovery and the export of datasources and alert
    rules. *)
Definition mock_discovered : State :=
  snd (export_alerts mock_env sample_self
    (snd (export_datasources mock_env sample_self
      (snd (get_folders mock_env sample_self
        (snd (test_connection mock_env sample_self sample_state))))))).



(** The time slept in all, for a list of waits. *)
Definition total_wait (waits : list Z) : Z := foldr Z.add 0 waits.

(** The waits [1, 2, 4, ...] after [k] failed attempts. *)
Definition doubling_waits (k : nat) : list Z :=
  (fun i : nat => 2 ^ Z.of_nat i) <$> seq 0 k.

(** A search result that [export_dashboard] can read: an object with a
    uid, a title, and a folder title that is a string when it is there. *)
Definition search_result (info : json) : Prop :=
  exists items uid title folder_title,
    info = JObj items /\
    assoc (lit "uid") items = Some uid /\
    assoc (lit "title") items = Some title /\
    default (JStr (lit "General")) (assoc (lit "folderTitle") items)
      = JStr folder_title.

(** The record [export_dashboard] writes, without permissions. *)
Definition export_record (dashboard meta : json) (folder_title export_time : str)
  : list (str * json) :=
  [ (lit "dashboard", dashboard);
    (lit "meta", meta);
    (lit "folderTitle", JStr folder_title);
    (lit "exportTime", JStr export_time) ].

(** A call that only reads: a GET without a body, to the server of the
    session, on an endpoint of the API. *)
Definition is_read_call (self : GrafanaExporter) (rq : Request) : Prop :=
  rq_method rq = GET /\ rq_base rq = url self /\ rq_body rq = JNull /\
  starts_with (lit "/api/") (rq_endpoint rq) = true.

(** From [st] to [st'] only such calls were made. *)
Definition reads_only (self : GrafanaExporter) (st st' : State) : Prop :=
  exists new, requests st' = requests st ++ new /\ Forall (is_read_call self) new.

(** The files a run may write before it turns to the dashboards. *)
Definition config_written (include_datasources include_alerts : bool) : list str :=
  lit "folders.json" ::
  (if include_datasources then [lit "datasources.json"] else []) ++
  (if include_alerts then [lit "alerts.json"] else []).

Definition config_keys (self : GrafanaExporter)
    (include_datasources include_alerts : bool) : list Path :=
  (fun name => resolve (joinpath (export_dir self) name))
    <$> config_written include_datasources include_alerts.

(** From [st] to [st'] no directory was made, and no file was written
    but those stored at [keys]. *)
Definition writes_within (keys : list Path) (st st' : State) : Prop :=
  dirs st' = dirs st /\
  forall k, k ∉ keys -> files st' !! k = files st !! k.




(** ** The command line *)

(** What [parse_args] gives.  The API key is a string: the parser
    requires [--api-key] unless [GRAFANA_API_KEY] is set. *)
Record Args := mkArgs {
  arg_url : str;
  arg_api_key : str;
  arg_output : str;
  arg_timeout : Z;
  arg_folder : option str;
  arg_tag : option str;
  arg_include_permissions : bool;
  arg_no_datasources : bool;
  arg_no_alerts : bool;
  arg_verbose : bool;
}.

(** The body of the [try] block of [main], up to the result of
    [export_all]. *)
Definition main_run (env : Env) (args : Args) : M bool :=
  let* exporter :=
    new_exporter env (arg_url args) (arg_api_key args) (arg_output args)
                 (arg_timeout args) in
  export_all env exporter
             (arg_include_permissions args)
             (negb (arg_no_datasources args))
             (negb (arg_no_alerts args))
             (arg_folder args) (arg_tag args).

(** [main] from [args = parser.parse_args()] on: the status passed to
    [sys.exit] and the state left.  An exception of the run is caught by
    [except Exception]. *)
Definition main (env : Env) (args : Args) (st : State) : Z * State :=
  match arg_api_key args with
  | [] => (1, st)
  | _ :: _ =>
      match main_run env args st with
      | (Ret success, st') => (if success then 0 else 1, st')
      | (Raise e, st') => (1, st')
      end
  end.

(** The arguments of a plain run against the small Grafana. *)
Definition sample_args : Args :=
  mkArgs (lit "http://localhost:3000/") (lit "secret") (lit "./grafana-exports") 30
         None None false false false false.

(** * Theorems *)

(** ** Stepping through the monad *)

Lemma bind_Ret {A B} (m : M A) (k : A -> M B) st a st1 :
  m st = (Ret a, st1) -> bind m k st = k a st1.
Proof. intros H. unfold bind. rewrite H. reflexivity. Qed.

Lemma bind_Raise {A B} (m : M A) (k : A -> M B) st e st1 :
  m st = (Raise e, st1) -> bind m k st = (Raise e, st1).
Proof. intros H. unfold bind. rewrite H. reflexivity. Qed.

Lemma bind_inv {A B} (m : M A) (k : A -> M B) st r st' :
  bind m k st = (r, st') ->
  (exists a st1, m st = (Ret a, st1) /\ k a st1 = (r, st')) \/
  (exists e, m st = (Raise e, st') /\ r = Raise e).
Proof.
  unfold bind. destruct (m st) as [[a | e] st1]; intros H.
  - left. eauto.
  - right. inversion H; subst. eauto.
Qed.

(** ** File names *)

Lemma safe_filename_elem (name : str) (c : N) :
  c ∈ safe_filename name -> is_unsafe c = false.
Proof.
  unfold safe_filename. cbv zeta.
  set (sub := fun c : N => if is_unsafe c then underscore else c).
  assert (Hsub : forall x, x ∈ sub <$> name -> is_unsafe x = false).
  { intros x Hx. apply list_elem_of_fmap in Hx as (y & -> & _).
    unfold sub. destruct (is_unsafe y) eqn:E; [reflexivity | exact E]. }
  destruct (100 <? length (sub <$> name))%nat.
  - intros Hc. apply Hsub. eapply subseteq_take; eauto.
  - apply Hsub.
Qed.

Lemma safe_filename_length (name : str) :
  (length (safe_filename name) <= 100)%nat.
Proof.
  unfold safe_filename. cbv zeta.
  destruct (100 <? length _)%nat eqn:E.
  - rewrite length_take. lia.
  - apply Nat.ltb_ge in E. exact E.
Qed.

(** C4.  For every string, the sanitised name contains none of the nine
    characters [<] [>] [:] double quote [/] backslash [|] [?] [*], and it
    has at most 100 characters. *)
Theorem safe_filename_safe_and_bounded (name : str) :
  (forall c, c ∈ unsafe_chars -> c ∉ safe_filename name) /\
  (length (safe_filename name) <= 100)%nat.
Proof.
  split; [| apply safe_filename_length].
  intros c Hc Hin. apply safe_filename_elem in Hin.
  unfold is_unsafe in Hin. apply bool_decide_eq_false in Hin. contradiction.
Qed.

Lemma safe_filename_safe_and_bounded_witness :
  (slash ∉ safe_filename (lit "CPU/Memory: usage?")) /\
  (length (safe_filename (lit "CPU/Memory: usage?")) <= 100)%nat.
Proof.
  split.
  - apply (safe_filename_safe_and_bounded (lit "CPU/Memory: usage?")).
    exact (bool_decide_unpack (slash ∈ unsafe_chars) I).
  - apply (safe_filename_safe_and_bounded (lit "CPU/Memory: usage?")).
Defined.

(** ** The retry loop *)

Section ApiRequest.

Context (env : Env) (self : GrafanaExporter).
Context (endpoint method : str) (data : json) (m : Method).
Hypothesis method_ok : classify_method method = Some m.

Lemma api_request_from_retry (retries : Z) (k remaining : nat) :
  forall (attempt : Z) (st : State),
    (forall i, (i < k)%nat -> fails_at env st (request_of self m endpoint data) i) ->
    attempt + Z.of_nat k <= retries - 1 ->
    api_request_from env self (k + remaining) attempt endpoint method data retries st =
    api_request_from env self remaining (attempt + Z.of_nat k)
      endpoint method data retries
      (after_attempts st (request_of self m endpoint data) k (backoff attempt k)).
Proof.
  induction k as [| k IH]; intros attempt st Hfail Hlast.
  - simpl. rewrite Z.add_0_r. unfold after_attempts, backoff. simpl.
    rewrite !app_nil_r. destruct st; reflexivity.
  - change (S k + remaining)%nat with (S (k + remaining)).
    cbn [api_request_from]. rewrite method_ok.
    unfold bind at 1. unfold send at 1. cbn [fst snd].
    pose proof (Hfail 0%nat ltac:(lia)) as H0. unfold fails_at in H0.
    rewrite Nat.add_0_r in H0. rewrite H0.
    destruct (attempt =? retries - 1) eqn:E; [apply Z.eqb_eq in E; exfalso; lia |].
    unfold bind at 1. unfold sleep at 1.
    rewrite IH.
    + replace (attempt + Z.of_nat (S k)) with (attempt + 1 + Z.of_nat k) by lia.
      f_equal.
      unfold after_attempts, backoff. cbn [requests sleeps ticks dirs files].
      f_equal.
      * rewrite <- app_assoc. reflexivity.
      * rewrite <- app_assoc. f_equal. cbn [seq fmap list_fmap].
        rewrite Z.add_0_r. f_equal.
        rewrite <- seq_shift, <- list_fmap_compose.
        apply list_fmap_ext. intros ? i ?. cbn. f_equal. lia.
    + intros i Hi. unfold fails_at. cbn [requests].
      rewrite length_app. cbn [length].
      pose proof (Hfail (S i) ltac:(lia)) as HS. unfold fails_at in HS.
      replace (length (requests st) + 1 + i)%nat
        with (length (requests st) + S i)%nat by lia.
      exact HS.
    + lia.
Qed.

Lemma after_no_attempts (st : State) (r : Request) :
  after_attempts st r 0 [] = st.
Proof. unfold after_attempts. simpl. rewrite !app_nil_r. destruct st; reflexivity. Qed.

Lemma backoff_from_0 (k : nat) :
  backoff 0 k = (fun i : nat => 2 ^ Z.of_nat i) <$> seq 0 k.
Proof. reflexivity. Qed.

(** C1.  With a retry budget of [S n] attempts, if the HTTP call fails on
    the first [n] attempts and succeeds on the last one, [api_request]
    returns the parsed JSON; it has made [S n] calls and has slept [2^i]
    after the failed attempt number [i], that is 1, 2, 4, ... *)
Theorem api_request_succeeds_on_final_attempt (n : nat) (parsed : json) (st : State) :
  (forall i, (i < n)%nat -> fails_at env st (request_of self m endpoint data) i) ->
  attempt_result
    (http_answer env (length (requests st) + n) (request_of self m endpoint data))
    = Some parsed ->
  api_request env self endpoint method data (Z.of_nat (S n)) st =
  (Ret parsed,
   after_attempts st (request_of self m endpoint data) (S n)
     ((fun i : nat => 2 ^ Z.of_nat i) <$> seq 0 n)).
Proof.
  intros Hfail Hok. unfold api_request. rewrite Nat2Z.id.
  replace (S n) with (n + 1)%nat at 1 by lia.
  rewrite (api_request_from_retry (Z.of_nat (S n)) n 1 0 st Hfail) by lia.
  cbn [api_request_from]. rewrite method_ok.
  unfold bind at 1. unfold send at 1.
  cbn [after_attempts requests]. rewrite length_app, length_replicate.
  rewrite Hok. unfold ret, after_attempts. cbn [sleeps ticks dirs files].
  rewrite backoff_from_0. f_equal. f_equal.
  rewrite <- app_assoc. f_equal.
  replace (S n) with (n + 1)%nat by lia. rewrite replicate_add. reflexivity.
Qed.

(** C2.  If every one of the [retries] attempts fails with a network or
    HTTP error, [api_request] returns [None]; it raises nothing.  It has
    made [retries] calls and slept after each but the last. *)
Theorem api_request_returns_none_when_all_attempts_fail (retries : Z) (st : State) :
  (forall i, (i < Z.to_nat retries)%nat ->
             fails_at env st (request_of self m endpoint data) i) ->
  api_request env self endpoint method data retries st =
  (Ret JNull,
   after_attempts st (request_of self m endpoint data) (Z.to_nat retries)
     ((fun i : nat => 2 ^ Z.of_nat i) <$> seq 0 (Z.to_nat retries - 1))).
Proof.
  intros Hfail. unfold api_request.
  destruct (Z.to_nat retries) as [| n] eqn:En.
  - cbn [api_request_from]. unfold ret. cbn [seq fmap list_fmap].
    rewrite after_no_attempts. reflexivity.
  - assert (Hr : retries = Z.of_nat (S n)) by lia.
    replace (S n) with (n + 1)%nat at 1 by lia.
    rewrite (api_request_from_retry retries n 1 0 st)
      by (try lia; intros; apply Hfail; lia).
    cbn [api_request_from]. rewrite method_ok.
    unfold bind at 1. unfold send at 1.
    cbn [after_attempts requests]. rewrite length_app, length_replicate.
    pose proof (Hfail n ltac:(lia)) as Hn. unfold fails_at in Hn.
    rewrite Hn.
    replace (0 + Z.of_nat n =? retries - 1) with true by (symmetry; apply Z.eqb_eq; lia).
    unfold ret, after_attempts. cbn [sleeps ticks dirs files].
    rewrite backoff_from_0. f_equal. f_equal.
    + rewrite <- app_assoc. f_equal.
      replace (S n) with (n + 1)%nat by lia. rewrite replicate_add. reflexivity.
    + replace (S n - 1)%nat with n by lia. reflexivity.
Qed.

(** A method other than GET and POST is not retried: the [ValueError]
    leaves [api_request]. *)
Lemma api_request_unsupported_method (e mth : str) (d : json) (retries : Z) (st : State) :
  classify_method mth = None -> 1 <= retries ->
  api_request env self e mth d retries st = (Raise ValueError, st).
Proof.
  intros Hm Hr. unfold api_request.
  destruct (Z.to_nat retries) eqn:En; [lia |].
  cbn [api_request_from]. rewrite Hm. reflexivity.
Qed.

End ApiRequest.

Lemma api_request_succeeds_on_final_attempt_witness :
  api_request flaky_env sample_self (lit "/api/user") (lit "GET") JNull 3 sample_state =
  (Ret sample_user,
   after_attempts sample_state
     (request_of sample_self GET (lit "/api/user") JNull) 3 [1; 2]).
Proof.
  apply (api_request_succeeds_on_final_attempt flaky_env sample_self
           (lit "/api/user") (lit "GET") JNull GET eq_refl 2 sample_user sample_state).
  - intros i Hi. destruct i as [| [| i]]; [reflexivity | reflexivity | lia].
  - reflexivity.
Defined.

Lemma api_request_returns_none_when_all_attempts_fail_witness :
  api_request down_env sample_self (lit "/api/user") (lit "GET") JNull 3 sample_state =
  (Ret JNull,
   after_attempts sample_state
     (request_of sample_self GET (lit "/api/user") JNull) 3 [1; 2]).
Proof.
  apply (api_request_returns_none_when_all_attempts_fail down_env sample_self
           (lit "/api/user") (lit "GET") JNull GET eq_refl 3 sample_state).
  intros i _. reflexivity.
Defined.

Example sample_state_is_initial :
  new_exporter flaky_env (lit "http://localhost:3000/") (lit "secret")
               (lit "./grafana-exports") 30 initial_state =
  (Ret sample_self, sample_state).
Proof. vm_compute. reflexivity. Qed.

(** ** Folder discovery *)

Lemma root_folder_is_root : is_root_folder root_folder = true.
Proof. reflexivity. Qed.

Lemma root_count_cons_root (l : list json) :
  root_count (root_folder :: l) = S (root_count l).
Proof. reflexivity. Qed.

(** C3, as the code has it.  When the folder-list call returns a list
    (the empty one included), [get_folders] returns the root folder
    followed by that list, and has written it to [folders.json]: the root
    is first, and it is there exactly once when the list of the server
    holds no such entry.  When the call fails, [get_folders] returns the
    empty list, without the root folder, and writes nothing. *)
Theorem get_folders_prepends_root_to_a_list (env : Env) (self : GrafanaExporter)
    (st st1 : State) (answer : json) :
  api_get env self (lit "/api/folders") st = (Ret answer, st1) ->
  (forall l, answer = JArr l ->
     get_folders env self st =
       (Ret (root_folder :: l),
        snd (write_file (joinpath (export_dir self) (lit "folders.json"))
                        (FJson (JArr (root_folder :: l))) st1)) /\
     head (root_folder :: l) = Some root_folder /\
     root_count (root_folder :: l) = S (root_count l) /\
     (root_count l = 0%nat -> root_first_once (root_folder :: l))) /\
  (answer = JNull -> get_folders env self st = (Ret [], st1)).
Proof.
  intros Hcall. split.
  - intros l ->. repeat split.
    + unfold get_folders. rewrite (bind_Ret _ _ _ _ _ Hcall). reflexivity.
    + rewrite root_count_cons_root. f_equal. assumption.
  - intros ->. unfold get_folders. rewrite (bind_Ret _ _ _ _ _ Hcall). reflexivity.
Qed.

Lemma get_folders_prepends_root_to_a_list_witness :
  get_folders (steady_env (JArr [])) sample_self sample_state =
    (Ret [root_folder],
     snd (write_file (joinpath (export_dir sample_self) (lit "folders.json"))
            (FJson (JArr [root_folder]))
            (after_attempts sample_state
               (request_of sample_self GET (lit "/api/folders") JNull) 1 []))) /\
  root_first_once [root_folder].
Proof.
  pose proof (get_folders_prepends_root_to_a_list (steady_env (JArr [])) sample_self
                sample_state
                (after_attempts sample_state
                   (request_of sample_self GET (lit "/api/folders") JNull) 1 [])
                (JArr []) eq_refl) as [Hlist _].
  destruct (Hlist [] eq_refl) as (Hrun & _ & _ & Honce).
  split; [exact Hrun | apply Honce; reflexivity].
Defined.

(** C3 as stated fails in the failure case, where no root folder is
    returned, and for a list of the server that holds a root entry
    already, where it is returned twice. *)
Lemma get_folders_root_missing_or_repeated :
  (fst (get_folders down_env sample_self sample_state) = Ret [] /\
   ~ root_first_once []) /\
  (fst (get_folders (steady_env (JArr [root_folder])) sample_self sample_state) =
     Ret [root_folder; root_folder] /\
   ~ root_first_once [root_folder; root_folder]).
Proof.
  split; (split; [vm_compute; reflexivity |]).
  - intros [H _]. discriminate H.
  - intros [_ H]. discriminate H.
Qed.

(** ** Datasources and alert rules *)

Section Verbatim.

Context (env : Env) (self : GrafanaExporter).

Lemma export_datasources_after_call (st st1 : State) (answer : json) :
  api_get env self (lit "/api/datasources") st = (Ret answer, st1) ->
  export_datasources env self st =
  (if truthy answer then
     let* _ := write_file (joinpath (export_dir self) (lit "datasources.json"))
                          (FJson answer) in
     let* _ := py_len answer in
     ret true
   else ret false) st1.
Proof.
  intros Hcall. unfold export_datasources.
  rewrite (bind_Ret _ _ _ _ _ Hcall). reflexivity.
Qed.

Lemma export_alerts_after_call (st st1 : State) (answer : json) :
  api_get env self (lit "/api/alerts") st = (Ret answer, st1) ->
  export_alerts env self st =
  (if truthy answer then
     let* _ := write_file (joinpath (export_dir self) (lit "alerts.json"))
                          (FJson answer) in
     let* _ := py_len answer in
     ret true
   else ret false) st1.
Proof.
  intros Hcall. unfold export_alerts.
  rewrite (bind_Ret _ _ _ _ _ Hcall). reflexivity.
Qed.

(** C8, as the code has it.  When the datasource-list call (the
    alert-list call) returns an array that is not empty, the array is
    written as it is to [datasources.json] ([alerts.json]) and [True] is
    returned.  When it returns the empty array, nothing is written and
    [False] is returned, as when the call fails. *)
Theorem nonempty_lists_are_persisted_verbatim (st st1 : State) (answer : json) :
  (api_get env self (lit "/api/datasources") st = (Ret answer, st1) ->
     (forall x l, answer = JArr (x :: l) ->
        export_datasources env self st =
          (Ret true,
           snd (write_file (joinpath (export_dir self) (lit "datasources.json"))
                           (FJson (JArr (x :: l))) st1))) /\
     (answer = JArr [] \/ answer = JNull ->
        export_datasources env self st = (Ret false, st1))) /\
  (api_get env self (lit "/api/alerts") st = (Ret answer, st1) ->
     (forall x l, answer = JArr (x :: l) ->
        export_alerts env self st =
          (Ret true,
           snd (write_file (joinpath (export_dir self) (lit "alerts.json"))
                           (FJson (JArr (x :: l))) st1))) /\
     (answer = JArr [] \/ answer = JNull ->
        export_alerts env self st = (Ret false, st1))).
Proof.
  split; intros Hcall.
  - rewrite (export_datasources_after_call _ _ _ Hcall). split.
    + intros x l ->. reflexivity.
    + intros [-> | ->]; reflexivity.
  - rewrite (export_alerts_after_call _ _ _ Hcall). split.
    + intros x l ->. reflexivity.
    + intros [-> | ->]; reflexivity.
Qed.

End Verbatim.

Lemma nonempty_lists_are_persisted_verbatim_witness :
  let answer := JArr [JObj [(lit "name", JStr (lit "prometheus"))]] in
  let called endpoint :=
    after_attempts sample_state (request_of sample_self GET endpoint JNull) 1 [] in
  export_datasources (steady_env answer) sample_self sample_state =
    (Ret true,
     snd (write_file (joinpath (export_dir sample_self) (lit "datasources.json"))
                     (FJson answer) (called (lit "/api/datasources")))) /\
  export_alerts (steady_env answer) sample_self sample_state =
    (Ret true,
     snd (write_file (joinpath (export_dir sample_self) (lit "alerts.json"))
                     (FJson answer) (called (lit "/api/alerts")))).
Proof.
  intros answer called. split.
  - destruct (nonempty_lists_are_persisted_verbatim (steady_env answer) sample_self
                sample_state (called (lit "/api/datasources")) answer) as [H _].
    destruct (H eq_refl) as [Hthere _]. exact (Hthere _ _ eq_refl).
  - destruct (nonempty_lists_are_persisted_verbatim (steady_env answer) sample_self
                sample_state (called (lit "/api/alerts")) answer) as [_ H].
    destruct (H eq_refl) as [Hthere _]. exact (Hthere _ _ eq_refl).
Defined.

(** C8 as stated fails for the empty array: the server answers the
    datasource-list call (the alert-list call) with [[]], and the exporter
    returns [False] and leaves the store without [datasources.json]
    ([alerts.json]). *)
Lemma empty_lists_are_not_persisted :
  let env := steady_env (JArr []) in
  (fst (export_datasources env sample_self sample_state) = Ret false /\
   files (snd (export_datasources env sample_self sample_state))
     !! resolve (joinpath (export_dir sample_self) (lit "datasources.json")) = None) /\
  (fst (export_alerts env sample_self sample_state) = Ret false /\
   files (snd (export_alerts env sample_self sample_state))
     !! resolve (joinpath (export_dir sample_self) (lit "alerts.json")) = None).
Proof. vm_compute. repeat split; reflexivity. Qed.

(** ** What a method leaves unchanged *)

Section Keeps.

Context (R : State -> State -> Prop) `{!PreOrder R} (bad : exn -> Prop).
Hypothesis bad_only_division : forall e, bad e -> e = ZeroDivisionError.

Lemma keeps_ret {A} (a : A) : keeps R bad (ret a).
Proof.
  intros st r st' H. inversion H; subst. split; [reflexivity | discriminate].
Qed.

Lemma keeps_raise {A} (e : exn) : ~ bad e -> keeps R bad (@raise A e).
Proof.
  intros He st r st' H. inversion H; subst. split; [reflexivity |].
  intros e' [= <-]. exact He.
Qed.

Lemma keeps_bind {A B} (m : M A) (k : A -> M B) :
  keeps R bad m -> (forall a, keeps R bad (k a)) -> keeps R bad (bind m k).
Proof.
  intros Hm Hk st r st' H.
  apply bind_inv in H as [(a & st1 & H1 & H2) | (e & H1 & ->)].
  - destruct (Hm _ _ _ H1) as [R1 _]. destruct (Hk a _ _ _ H2) as [R2 Hr].
    split; [etransitivity; eassumption | exact Hr].
  - destruct (Hm _ _ _ H1) as [R1 Hr]. split; [exact R1 |].
    intros e' [= <-]. apply Hr. reflexivity.
Qed.

(** An effect that always returns. *)
Lemma keeps_effect {A} (m : M A) :
  (forall st, exists a, fst (m st) = Ret a) ->
  (forall st, R st (snd (m st))) ->
  keeps R bad m.
Proof.
  intros Hret HR st r st' H. specialize (Hret st) as [a Ha]. specialize (HR st).
  rewrite H in Ha, HR. cbn in Ha, HR. subst r. split; [exact HR | discriminate].
Qed.

Lemma not_bad_ValueError : ~ bad ValueError.
Proof. intros H. apply bad_only_division in H. discriminate. Qed.
Lemma not_bad_AttributeError : ~ bad AttributeError.
Proof. intros H. apply bad_only_division in H. discriminate. Qed.
Lemma not_bad_TypeError : ~ bad TypeError.
Proof. intros H. apply bad_only_division in H. discriminate. Qed.
Lemma not_bad_KeyError : ~ bad KeyError.
Proof. intros H. apply bad_only_division in H. discriminate. Qed.

Lemma keeps_getitem v k : keeps R bad (getitem v k).
Proof.
  unfold getitem. destruct v; try (apply keeps_raise, not_bad_TypeError).
  destruct (assoc k items); [apply keeps_ret | apply keeps_raise, not_bad_KeyError].
Qed.

Lemma keeps_py_get v k d : keeps R bad (py_get v k d).
Proof.
  unfold py_get. destruct v; try (apply keeps_raise, not_bad_AttributeError).
  apply keeps_ret.
Qed.

Lemma keeps_py_len v : keeps R bad (py_len v).
Proof.
  unfold py_len.
  destruct v; try (apply keeps_raise, not_bad_TypeError); apply keeps_ret.
Qed.

Lemma keeps_py_insert0 v x : keeps R bad (py_insert0 v x).
Proof.
  unfold py_insert0.
  destruct v; try (apply keeps_raise, not_bad_AttributeError); apply keeps_ret.
Qed.

Lemma keeps_safe_filename_of v : keeps R bad (safe_filename_of v).
Proof.
  unfold safe_filename_of.
  destruct v; try (apply keeps_raise, not_bad_TypeError); apply keeps_ret.
Qed.

Lemma keeps_get_state : keeps R bad get_state.
Proof.
  intros st r st' H. inversion H; subst. split; [reflexivity | discriminate].
Qed.

Section WithCalls.

Context (env : Env) (self : GrafanaExporter).

(** The calls and the sleeps of one [api_request] are steps of [R]. *)
Lemma keeps_api_request endpoint method data retries :
  (forall m, classify_method method = Some m ->
     forall st, R st (snd (send (http_answer env) (request_of self m endpoint data) st))) ->
  (forall t st, R st (snd (sleep t st))) ->
  keeps R bad (api_request env self endpoint method data retries).
Proof.
  intros Hsend Hsleep. unfold api_request.
  generalize (Z.to_nat retries) as remaining. generalize 0 as attempt.
  intros attempt remaining. revert attempt.
  induction remaining as [| remaining IH]; intros attempt; cbn [api_request_from].
  - apply keeps_ret.
  - destruct (classify_method method) as [m |] eqn:Hm;
      [| apply keeps_raise, not_bad_ValueError].
    apply keeps_bind.
    + apply keeps_effect; [intros st; eexists; reflexivity | apply Hsend; reflexivity].
    + intros o. destruct (attempt_result o); [apply keeps_ret |].
      destruct (attempt =? retries - 1); [apply keeps_ret |].
      apply keeps_bind; [| intros _; apply IH].
      apply keeps_effect; [intros st; eexists; reflexivity | apply Hsleep].
Qed.

End WithCalls.

End Keeps.

(** ** Running a method forward *)

Lemma wp_run {A} (m : M A) Q st r st' :
  wp m Q st -> m st = (r, st') -> Q r st'.
Proof. unfold wp. intros H E. rewrite E in H. exact H. Qed.

Lemma wp_bind {A B} (m : M A) (k : A -> M B) Q st :
  wp m (fun r st1 =>
          match r with
          | Ret a => wp (k a) Q st1
          | Raise e => Q (Raise e) st1
          end) st ->
  wp (bind m k) Q st.
Proof. unfold wp, bind. destruct (m st) as [[a | e] st1]; cbn; auto. Qed.

Lemma wp_ret {A} (a : A) Q st : Q (Ret a) st -> wp (ret a) Q st.
Proof. auto. Qed.

Lemma wp_raise {A} (e : exn) (Q : result A -> State -> Prop) st :
  Q (Raise e) st -> wp (raise e) Q st.
Proof. auto. Qed.

Lemma wp_getitem v k (Q : result json -> State -> Prop) st :
  (forall items x, v = JObj items -> assoc k items = Some x -> Q (Ret x) st) ->
  (forall e, Q (Raise e) st) ->
  wp (getitem v k) Q st.
Proof.
  intros Hok Hfail. unfold getitem. destruct v; try apply wp_raise, Hfail.
  destruct (assoc k items) eqn:E; [apply wp_ret; eauto | apply wp_raise, Hfail].
Qed.

Lemma wp_py_get v k d (Q : result json -> State -> Prop) st :
  (forall items, v = JObj items -> Q (Ret (default d (assoc k items))) st) ->
  (forall e, Q (Raise e) st) ->
  wp (py_get v k d) Q st.
Proof.
  intros Hok Hfail. unfold py_get. destruct v; try apply wp_raise, Hfail.
  apply wp_ret; eauto.
Qed.

Lemma wp_safe_filename_of v (Q : result str -> State -> Prop) st :
  (forall s, v = JStr s -> Q (Ret (safe_filename s)) st) ->
  (forall e, Q (Raise e) st) ->
  wp (safe_filename_of v) Q st.
Proof.
  intros Hok Hfail. unfold safe_filename_of. destruct v; try apply wp_raise, Hfail.
  apply wp_ret; eauto.
Qed.

(** Any pure operation: the state stays. *)
Lemma wp_pure {A} (m : M A) (Q : result A -> State -> Prop) st :
  (forall s, snd (m s) = s) ->
  (forall r, Q r st) ->
  wp m Q st.
Proof. intros Hpure HQ. unfold wp. rewrite Hpure. apply HQ. Qed.

Lemma py_in_pure k v s : snd (py_in k v s) = s.
Proof. destruct v; reflexivity. Qed.

(** ** What an API call changes: the two logs, nothing else *)

Lemma api_request_same_store env self endpoint method data retries st r st' :
  api_request env self endpoint method data retries st = (r, st') ->
  ticks st' = ticks st /\ dirs st' = dirs st /\ files st' = files st.
Proof.
  unfold api_request.
  generalize (Z.to_nat retries) as remaining. generalize 0 as attempt.
  intros attempt remaining. revert attempt st.
  induction remaining as [| remaining IH]; intros attempt st H;
    cbn [api_request_from] in H.
  - inversion H; subst. repeat split.
  - destruct (classify_method method) as [m |]; [| inversion H; subst; repeat split].
    unfold bind at 1, send at 1 in H.
    destruct (attempt_result _); [inversion H; subst; repeat split |].
    destruct (attempt =? retries - 1); [inversion H; subst; repeat split |].
    unfold bind at 1, sleep at 1 in H. apply IH in H. exact H.
Qed.

(** A call with the method GET raises nothing. *)
Lemma api_get_returns env self endpoint st :
  exists j st', api_get env self endpoint st = (Ret j, st').
Proof.
  unfold api_get, api_request.
  generalize (Z.to_nat 3) as remaining. generalize 0 as attempt.
  intros attempt remaining. revert attempt st.
  induction remaining as [| remaining IH]; intros attempt st; cbn [api_request_from].
  - eexists _, _. reflexivity.
  - change (classify_method (lit "GET")) with (Some GET). cbv iota.
    unfold bind at 1. unfold send at 1.
    destruct (attempt_result _); [eexists _, _; reflexivity |].
    destruct (attempt =? 3 - 1); [eexists _, _; reflexivity |].
    unfold bind at 1. unfold sleep at 1. apply IH.
Qed.

Lemma wp_api_get env self endpoint (Q : result json -> State -> Prop) st :
  (forall j st1, api_get env self endpoint st = (Ret j, st1) ->
                 ticks st1 = ticks st -> dirs st1 = dirs st ->
                 files st1 = files st -> Q (Ret j) st1) ->
  wp (api_get env self endpoint) Q st.
Proof.
  intros HQ. unfold wp.
  destruct (api_get_returns env self endpoint st) as (j & st1 & E).
  rewrite E. cbn.
  destruct (api_request_same_store _ _ _ _ _ _ _ _ _ E) as (? & ? & ?).
  apply HQ; assumption.
Qed.

(** ** Paths *)

Lemma not_elem_of_computed (c : N) (s : str) :
  bool_decide (c ∈ s) = false -> c ∉ s.
Proof. apply bool_decide_eq_false. Qed.

Lemma proper_name_computed (s : str) :
  bool_decide (s <> [] /\ s <> dot /\ s <> dotdot /\ slash ∉ s) = true ->
  proper_name s.
Proof. apply bool_decide_eq_true. Qed.

Lemma split_on_no_separator (c : N) (s : str) :
  c ∉ s -> split_on c s = [s].
Proof.
  induction s as [| x s IH]; intros Hc; [reflexivity |].
  cbn. rewrite bool_decide_eq_false_2.
  - rewrite IH; [reflexivity |]. intros H. apply Hc. right. exact H.
  - intros ->. apply Hc. left.
Qed.

Lemma path_parts_proper (s : str) : proper_name s -> path_parts s = [s].
Proof.
  intros (Hne & Hdot & _ & Hslash). unfold path_parts.
  rewrite split_on_no_separator by exact Hslash.
  rewrite filter_cons_True by (split; assumption). reflexivity.
Qed.

Lemma joinpath_proper (p : Path) (s : str) :
  proper_name s -> joinpath p s = p ++ [s].
Proof.
  intros Hs. pose proof Hs as (Hne & _ & _ & Hslash). unfold joinpath.
  destruct s as [| c s']; [contradiction |].
  rewrite bool_decide_eq_false_2.
  - rewrite path_parts_proper by exact Hs. reflexivity.
  - intros ->. apply Hslash. left.
Qed.

Lemma resolve_from_app (p q : Path) :
  forall stack, exists stack',
    resolve_from stack p = reverse stack' /\
    resolve_from stack (p ++ q) = resolve_from stack' q.
Proof.
  induction p as [| c p IH]; intros stack.
  - exists stack. split; reflexivity.
  - cbn [resolve_from app].
    destruct (bool_decide (c = dotdot)); [| apply IH].
    destruct stack as [| top below]; [apply IH |].
    destruct (bool_decide (top = root_part)); [apply IH |].
    destruct (bool_decide (top = dotdot)); apply IH.
Qed.

Lemma resolve_two_names (p : Path) (a b : str) :
  a <> dotdot -> b <> dotdot ->
  resolve (p ++ [a; b]) = resolve p ++ [a; b].
Proof.
  intros Ha Hb. unfold resolve.
  destruct (resolve_from_app p [a; b] []) as (stack & E1 & E2).
  rewrite E1, E2. cbn [resolve_from].
  rewrite !bool_decide_eq_false_2 by assumption.
  rewrite !reverse_cons, <- app_assoc. reflexivity.
Qed.

Lemma resolve_one_name (p : Path) (a : str) :
  a <> dotdot -> resolve (p ++ [a]) = resolve p ++ [a].
Proof.
  intros Ha. unfold resolve.
  destruct (resolve_from_app p [a] []) as (stack & E1 & E2).
  rewrite E1, E2. cbn [resolve_from].
  rewrite !bool_decide_eq_false_2 by assumption.
  rewrite !reverse_cons. reflexivity.
Qed.

Lemma safe_filename_no_slash (name : str) : slash ∉ safe_filename name.
Proof.
  intros H. apply safe_filename_elem in H. discriminate H.
Qed.

(** The name of a dashboard file is a proper name when the uid brings no
    slash. *)
Lemma dashboard_filename_proper env (title : str) (uid : json) :
  slash ∉ format (repr env) uid ->
  proper_name (dashboard_filename env (safe_filename title) uid).
Proof.
  intros Huid. unfold dashboard_filename, proper_name.
  set (name := safe_filename title ++ lit "_" ++ format (repr env) uid ++ lit ".json").
  assert (Hlen : (6 <= length name)%nat).
  { unfold name. rewrite !length_app. cbn. lia. }
  repeat split.
  - intros E. rewrite E in Hlen. cbn in Hlen. lia.
  - intros E. rewrite E in Hlen. cbn in Hlen. lia.
  - intros E. rewrite E in Hlen. cbn in Hlen. lia.
  - unfold name. rewrite !elem_of_app. intros [H | [H | [H | H]]].
    + exact (safe_filename_no_slash _ H).
    + exact (proj1 (bool_decide_eq_false (slash ∈ lit "_")) eq_refl H).
    + exact (Huid H).
    + exact (proj1 (bool_decide_eq_false (slash ∈ lit ".json")) eq_refl H).
Qed.

Lemma dashboard_path_proper env self (folder_title title : str) (uid : json) :
  proper_name (safe_filename folder_title) ->
  slash ∉ format (repr env) uid ->
  resolve (dashboard_path env self folder_title title uid) =
  resolve (export_dir self) ++
    [safe_filename folder_title; dashboard_filename env (safe_filename title) uid].
Proof.
  intros Hfolder Huid. unfold dashboard_path.
  pose proof (dashboard_filename_proper env title uid Huid) as Hname.
  rewrite (joinpath_proper _ _ Hfolder), (joinpath_proper _ _ Hname).
  rewrite <- app_assoc. cbn [app].
  apply resolve_two_names; [apply Hfolder | apply Hname].
Qed.

(** ** Exporting one dashboard *)

Ltac same_files := cbn [files snd mkdir read_clock] in *; congruence.

(** A run that ends otherwise than by returning [True] wrote no file. *)
Ltac no_file_written :=
  cbn beta iota;
  split; [intros [=] | intros _; same_files].

Lemma export_dashboard_wp env self info include_permissions st :
  wp (export_dashboard env self info include_permissions)
     (fun r st' =>
        (r = Ret true ->
         exists items uid title folder_title record,
           info = JObj items /\
           assoc (lit "uid") items = Some uid /\
           assoc (lit "title") items = Some (JStr title) /\
           default (JStr (lit "General")) (assoc (lit "folderTitle") items)
             = JStr folder_title /\
           assoc (lit "folderTitle") record = Some (JStr folder_title) /\
           files st' =
             <[resolve (dashboard_path env self folder_title title uid)
                 := FJson (JObj record)]> (files st)) /\
        (r <> Ret true -> files st' = files st))
     st.
Proof.
  unfold export_dashboard.
  apply wp_bind, wp_getitem; [intros items uid -> Huid | intros e; no_file_written].
  apply wp_bind, wp_getitem; [intros ? title [= <-] Htitle | intros e; no_file_written].
  apply wp_bind, wp_py_get; [intros ? [= <-] | intros e; no_file_written].
  apply wp_bind, wp_safe_filename_of; [intros folder_title Hfolder | intros e; no_file_written].
  rewrite Hfolder.
  apply wp_bind. unfold wp at 1, mkdir at 1. cbn [fst snd].
  apply wp_bind, wp_api_get. intros dashboard_data st1 _ _ _ Hst1.
  apply wp_bind.
  destruct (truthy dashboard_data).
  2: { apply wp_ret. cbn beta iota. apply wp_ret. no_file_written. }
  apply wp_pure; [apply py_in_pure |]. intros [[|] | e];
    [| apply wp_ret; no_file_written | no_file_written].
  apply wp_bind, wp_safe_filename_of; [intros t -> | intros e; no_file_written].
  apply wp_bind, wp_getitem; [intros ditems dashboard -> Hdash | intros e; no_file_written].
  apply wp_bind, wp_py_get; [intros ? [= <-] | intros e; no_file_written].
  apply wp_bind. unfold wp at 1, read_clock at 1. cbn [fst snd].
  set (st2 := snd (read_clock (now env) st1)).
  assert (Hst2 : files st2 = files st) by (subst st2; same_files).
  clearbody st2.
  assert (Hwrite : forall record st3,
            assoc (lit "folderTitle") record = Some (JStr folder_title) ->
            files st3 = files st ->
            wp (let* _ := write_file
                            (joinpath (joinpath (export_dir self) (safe_filename folder_title))
                               (dashboard_filename env (safe_filename t) uid))
                            (FJson (JObj record)) in ret true)
               (fun r st' =>
                  (r = Ret true ->
                   exists items0 uid0 title folder_title0 record0,
                     JObj items = JObj items0 /\
                     assoc (lit "uid") items0 = Some uid0 /\
                     assoc (lit "title") items0 = Some (JStr title) /\
                     default (JStr (lit "General")) (assoc (lit "folderTitle") items0)
                       = JStr folder_title0 /\
                     assoc (lit "folderTitle") record0 = Some (JStr folder_title0) /\
                     files st' =
                       <[resolve (dashboard_path env self folder_title0 title uid0)
                           := FJson (JObj record0)]> (files st)) /\
                  (r <> Ret true -> files st' = files st))
               st3).
  { intros record st3 Hrec Hfiles. apply wp_bind.
    unfold wp, write_file, ret. cbn [fst snd files]. split; [| intros H; contradiction].
    intros _. exists items, uid, t, folder_title, record.
    rewrite Hfiles. repeat split; assumption. }
  apply wp_bind. destruct include_permissions.
  - apply wp_bind. unfold get_dashboard_permissions.
    apply wp_api_get. intros permissions st3 _ _ _ Hst3.
    destruct (truthy permissions); apply wp_ret; cbn beta iota;
      apply Hwrite; try same_files.
    + reflexivity.
    + reflexivity.
  - apply wp_ret. cbn beta iota. apply Hwrite; [| exact Hst2].
    reflexivity.
Qed.


(** X20.  Where the file of a dashboard lies.  A dashboard that is
    exported successfully gives exactly one file.  The folder title is
    taken from the search result, 'General' when it has none.  When the
    sanitised folder title
    is a proper name and the uid holds no slash, the file is
    [<session-dir>/<sanitised folder title>/<sanitised title>_<uid>.json].
    A run that does not return [True] writes no file. *)
Theorem dashboard_file_lies_in_its_folder env self info include_permissions st r st' :
  export_dashboard env self info include_permissions st = (r, st') ->
  (r = Ret true ->
   exists items uid title folder_title record,
     info = JObj items /\
     assoc (lit "uid") items = Some uid /\
     assoc (lit "title") items = Some (JStr title) /\
     default (JStr (lit "General")) (assoc (lit "folderTitle") items)
       = JStr folder_title /\
     assoc (lit "folderTitle") record = Some (JStr folder_title) /\
     (proper_name (safe_filename folder_title) ->
      slash ∉ format (repr env) uid ->
      files st' =
        <[resolve (export_dir self) ++
            [safe_filename folder_title;
             safe_filename title ++ lit "_" ++ format (repr env) uid ++ lit ".json"]
          := FJson (JObj record)]> (files st))) /\
  (r <> Ret true -> files st' = files st).
Proof.
  intros Hrun.
  pose proof (wp_run _ _ _ _ _ (export_dashboard_wp env self info include_permissions st) Hrun)
    as [Hok Hfail].
  split; [| exact Hfail].
  intros Hr. destruct (Hok Hr) as (items & uid & title & folder_title & record &
                                   Hinfo & Huid & Htitle & Hfolder & Hrec & Hfiles).
  exists items, uid, title, folder_title, record.
  repeat (split; [assumption |]).
  intros Hproper Hslash.
  rewrite Hfiles, (dashboard_path_proper env self _ _ _ Hproper Hslash).
  reflexivity.
Qed.

Lemma dashboard_file_lies_in_its_folder_witness :
  exists record,
    files (snd (export_dashboard dashboard_env sample_self
                  (sample_dashboard "u1" "CPU: load" (Some (lit "Ops"))) false sample_state)) =
    <[ [lit "grafana-exports"; lit "export_20240101_000000"; lit "Ops";
        lit "CPU_ load_u1.json"] := FJson (JObj record) ]> ∅.
Proof.
  destruct (dashboard_file_lies_in_its_folder dashboard_env sample_self
              (sample_dashboard "u1" "CPU: load" (Some (lit "Ops"))) false sample_state
              (Ret true)
              (snd (export_dashboard dashboard_env sample_self
                      (sample_dashboard "u1" "CPU: load" (Some (lit "Ops"))) false sample_state))
              eq_refl) as [Hok _].
  destruct (Hok eq_refl) as (items & uid & title & folder_title & record &
                             Hinfo & Huid & Htitle & Hfolder & _ & Hfiles).
  injection Hinfo as <-.
  injection Huid as <-. injection Htitle as <-. injection Hfolder as <-.
  assert (Hproper : proper_name (safe_filename (lit "Ops"))).
  { apply proper_name_computed. reflexivity. }
  assert (Hslash : slash ∉ format (repr dashboard_env) (JStr (lit "u1"))).
  { apply not_elem_of_computed. reflexivity. }
  exists record. rewrite (Hfiles Hproper Hslash). reflexivity.
Defined.

(** C5.  The code misses the layout of the claim for a folder title that
    [safe_filename] leaves as no proper name: it replaces the separators
    and keeps the empty name and the dot names.  With the empty title the
    file lies in the session directory itself, next to [folders.json];
    with the title [..] it lies in the parent of the session directory,
    outside the export. *)
Lemma dashboard_file_outside_a_folder :
  let run title :=
    export_dashboard dashboard_env sample_self
      (JObj [(lit "uid", JStr (lit "u1")); (lit "title", JStr (lit "T"));
             (lit "folderTitle", JStr title)]) false sample_state in
  (fst (run []) = Ret true /\
   elements (dom (files (snd (run [])))) =
     [[lit "grafana-exports"; lit "export_20240101_000000"; lit "T_u1.json"]]) /\
  (fst (run dotdot) = Ret true /\
   elements (dom (files (snd (run dotdot)))) =
     [[lit "grafana-exports"; lit "T_u1.json"]]).
Proof. vm_compute. repeat split; reflexivity. Qed.

(** ** The phases before the dashboards are quiet *)

#[local] Instance quiet_preorder self : PreOrder (quiet self).
Proof.
  split.
  - intros st. split; reflexivity.
  - intros a b c [? ?] [? ?]. split; congruence.
Qed.

Section Quiet.

Context (env : Env) (self : GrafanaExporter).

Lemma quiet_send answer rq st :
  is_detail_fetch rq = false -> quiet self st (snd (send answer rq st)).
Proof.
  intros Hrq. split; [| reflexivity].
  unfold detail_fetches. cbn [send snd requests].
  rewrite filter_app, filter_cons_False, filter_nil, app_nil_r; [reflexivity |].
  rewrite Hrq. discriminate.
Qed.

Lemma quiet_sleep t st : quiet self st (snd (sleep t st)).
Proof. split; reflexivity. Qed.

Lemma config_file_is_not_the_report (name : str) :
  proper_name name -> name <> lit "export_report.md" ->
  resolve (joinpath (export_dir self) name) <> report_key self.
Proof.
  intros Hname Hne. unfold report_key, report_path.
  assert (Hreport : proper_name (lit "export_report.md")).
  { apply proper_name_computed. reflexivity. }
  rewrite (joinpath_proper _ _ Hname), (joinpath_proper _ _ Hreport).
  rewrite !resolve_one_name by (apply Hname || apply Hreport).
  intros E. apply app_inv_head in E. congruence.
Qed.

Lemma quiet_write_file (name : str) c st :
  proper_name name -> name <> lit "export_report.md" ->
  quiet self st (snd (write_file (joinpath (export_dir self) name) c st)).
Proof.
  intros Hname Hne. split; [reflexivity |].
  cbn [write_file snd files]. apply lookup_insert_ne.
  apply config_file_is_not_the_report; assumption.
Qed.

Lemma keeps_quiet_api_get endpoint :
  starts_with (lit "/api/dashboards/uid/") endpoint = false ->
  keeps (quiet self) no_exn (api_get env self endpoint).
Proof.
  intros Hendpoint. apply keeps_api_request; try apply _.
  - intros e [].
  - intros m [= <-] st. apply quiet_send. exact Hendpoint.
  - apply quiet_sleep.
Qed.

Lemma keeps_quiet_write_file (name : str) c :
  proper_name name -> name <> lit "export_report.md" ->
  keeps (quiet self) no_exn (write_file (joinpath (export_dir self) name) c).
Proof.
  intros Hname Hne. apply keeps_effect; try apply _.
  - intros st. eexists. reflexivity.
  - intros st. apply quiet_write_file; assumption.
Qed.

Ltac keeps_pure :=
  first [ apply keeps_ret | apply keeps_py_get | apply keeps_py_len
        | apply keeps_py_insert0 | apply keeps_getitem ];
  try apply _; try (intros ? []).

Lemma keeps_quiet_test_connection :
  keeps (quiet self) no_exn (test_connection env self).
Proof.
  unfold test_connection.
  apply keeps_bind; [apply _ | apply keeps_quiet_api_get; reflexivity |].
  intros user_info. destruct (truthy user_info); [| keeps_pure].
  repeat (apply keeps_bind; [apply _ | keeps_pure | intros ?]). keeps_pure.
Qed.

Lemma keeps_quiet_get_folders :
  keeps (quiet self) no_exn (get_folders env self).
Proof.
  unfold get_folders.
  apply keeps_bind; [apply _ | apply keeps_quiet_api_get; reflexivity |].
  intros folders. destruct (negb (is_none folders)); [| keeps_pure].
  apply keeps_bind; [apply _ | keeps_pure | intros ?].
  apply keeps_bind; [apply _ | | intros ?; keeps_pure].
  apply keeps_quiet_write_file; [apply proper_name_computed; reflexivity | discriminate].
Qed.

Lemma keeps_quiet_export_datasources :
  keeps (quiet self) no_exn (export_datasources env self).
Proof.
  unfold export_datasources.
  apply keeps_bind; [apply _ | apply keeps_quiet_api_get; reflexivity |].
  intros datasources. destruct (truthy datasources); [| keeps_pure].
  apply keeps_bind; [apply _ | | intros ?].
  - apply keeps_quiet_write_file; [apply proper_name_computed; reflexivity | discriminate].
  - apply keeps_bind; [apply _ | keeps_pure | intros ?; keeps_pure].
Qed.

Lemma keeps_quiet_export_alerts :
  keeps (quiet self) no_exn (export_alerts env self).
Proof.
  unfold export_alerts.
  apply keeps_bind; [apply _ | apply keeps_quiet_api_get; reflexivity |].
  intros alerts. destruct (truthy alerts); [| keeps_pure].
  apply keeps_bind; [apply _ | | intros ?].
  - apply keeps_quiet_write_file; [apply proper_name_computed; reflexivity | discriminate].
  - apply keeps_bind; [apply _ | keeps_pure | intros ?; keeps_pure].
Qed.

Lemma keeps_quiet_get_dashboards folder_id tag :
  keeps (quiet self) no_exn (get_dashboards env self folder_id tag).
Proof.
  unfold get_dashboards.
  apply keeps_bind; [apply _ | apply keeps_quiet_api_get; reflexivity |].
  intros dashboards. destruct (negb (is_none dashboards)); [| keeps_pure].
  apply keeps_bind; [apply _ | keeps_pure | intros ?; keeps_pure].
Qed.

Lemma keeps_quiet_find_folder_id folders name :
  keeps (quiet self) no_exn (find_folder_id folders name).
Proof.
  induction folders as [| folder rest IH]; cbn [find_folder_id]; [keeps_pure |].
  apply keeps_bind; [apply _ | keeps_pure | intros title].
  destruct (eq_str title name); [keeps_pure | exact IH].
Qed.

End Quiet.

(** ** The fatal conditions *)

Section Fatal.

Context (env : Env) (self : GrafanaExporter).
Context (include_permissions include_datasources include_alerts : bool).
Context (folder_filter tag_filter : option str).

Lemma reaches_discovery_quiet st folders st4 :
  reaches_discovery env self include_datasources include_alerts st folders st4 ->
  quiet self st st4.
Proof.
  intros (st1 & st2 & b1 & st3 & b2 & H1 & H2 & H3 & H4).
  destruct (keeps_quiet_test_connection env self _ _ _ H1) as [Q1 _].
  destruct (keeps_quiet_get_folders env self _ _ _ H2) as [Q2 _].
  assert (Q3 : quiet self st2 st3).
  { destruct include_datasources.
    - destruct (keeps_quiet_export_datasources env self _ _ _ H3) as [Q3 _]. exact Q3.
    - inversion H3; subst. reflexivity. }
  assert (Q4 : quiet self st3 st4).
  { destruct include_alerts.
    - destruct (keeps_quiet_export_alerts env self _ _ _ H4) as [Q4 _]. exact Q4.
    - inversion H4; subst. reflexivity. }
  repeat (etransitivity; [eassumption |]). reflexivity.
Qed.

(** After the discovery, [export_all] goes on with the dashboard list. *)
Lemma export_all_after_discovery st folders st4 :
  reaches_discovery env self include_datasources include_alerts st folders st4 ->
  export_all env self include_permissions include_datasources include_alerts
             folder_filter tag_filter st =
  (if truthy_opt folder_filter then
     let* folder_id := find_folder_id folders (default [] folder_filter) in
     if is_none folder_id then ret false
     else
       let* dashboards := get_dashboards env self folder_id tag_filter in
       export_found env self dashboards folders include_permissions
   else
     let* dashboards := get_dashboards env self JNull tag_filter in
     export_found env self dashboards folders include_permissions) st4.
Proof.
  intros (st1 & st2 & b1 & st3 & b2 & H1 & H2 & H3 & H4).
  unfold export_all.
  rewrite (bind_Ret _ _ _ _ _ H1). cbn [negb].
  rewrite (bind_Ret _ _ _ _ _ H2).
  rewrite (bind_Ret _ _ _ _ _ H3).
  rewrite (bind_Ret _ _ _ _ _ H4).
  reflexivity.
Qed.

Lemma find_folder_id_absent name folders st :
  folder_absent name folders ->
  find_folder_id folders name st = (Ret JNull, st).
Proof.
  induction folders as [| folder rest IH]; intros Habsent; [reflexivity |].
  destruct (Habsent folder ltac:(left)) as (items & title & -> & Htitle & Hne).
  cbn [find_folder_id]. unfold bind, getitem. rewrite Htitle. cbn. rewrite Hne.
  apply IH. intros f Hf. apply Habsent. right. exact Hf.
Qed.

(** C6.  Each fatal condition (the connectivity check fails, the folder
    filter names a folder that is not in the folder list, the dashboard
    list is empty) makes [export_all] return [False]; up to there no
    dashboard was fetched and [export_report.md] was not written. *)
Theorem fatal_conditions_end_the_run_early (st st_end : State) :
  fatal_condition env self include_datasources include_alerts
                  folder_filter tag_filter st st_end ->
  export_all env self include_permissions include_datasources include_alerts
             folder_filter tag_filter st = (Ret false, st_end) /\
  detail_fetches st_end = detail_fetches st /\
  files st_end !! report_key self = files st !! report_key self.
Proof.
  intros [st1 Hconn
         | folders st4 name Hreach Hfilter Hname Habsent
         | folders st4 st5 Hreach Hfilter Hlist
         | folders st4 name folder_id st5 Hreach Hfilter Hname Hfind Hid Hlist].
  - split.
    + unfold export_all. rewrite (bind_Ret _ _ _ _ _ Hconn). reflexivity.
    + destruct (keeps_quiet_test_connection env self _ _ _ Hconn) as [Q _]. exact Q.
  - split; [| exact (reaches_discovery_quiet _ _ _ Hreach)].
    rewrite (export_all_after_discovery _ _ _ Hreach). subst folder_filter.
    destruct name as [| c name]; [contradiction |]. cbn [truthy_opt default].
    rewrite (bind_Ret _ _ _ _ _ (find_folder_id_absent _ _ _ Habsent)).
    reflexivity.
  - split.
    + rewrite (export_all_after_discovery _ _ _ Hreach), Hfilter.
      rewrite (bind_Ret _ _ _ _ _ Hlist). reflexivity.
    + apply reaches_discovery_quiet in Hreach.
      destruct (keeps_quiet_get_dashboards env self _ _ _ _ _ Hlist) as [Q _].
      change (quiet self st st5). etransitivity; eassumption.
  - split.
    + rewrite (export_all_after_discovery _ _ _ Hreach). subst folder_filter.
      destruct name as [| c name]; [contradiction |]. cbn [truthy_opt default].
      rewrite (bind_Ret _ _ _ _ _ Hfind), Hid.
      rewrite (bind_Ret _ _ _ _ _ Hlist). reflexivity.
    + apply reaches_discovery_quiet in Hreach.
      destruct (keeps_quiet_get_dashboards env self _ _ _ _ _ Hlist) as [Q _].
      change (quiet self st st5). etransitivity; eassumption.
Qed.

(** Whatever the inputs, a run that returns [False] has fetched no
    dashboard and has not written the report. *)
Lemma returning_false_is_quiet (st st_end : State) :
  export_all env self include_permissions include_datasources include_alerts
             folder_filter tag_filter st = (Ret false, st_end) ->
  quiet self st st_end.
Proof.
  assert (Hfound : forall dashboards folders s s',
            export_found env self dashboards folders include_permissions s
              = (Ret false, s') -> s' = s).
  { intros dashboards folders s s' H. unfold export_found in H.
    destruct (negb (truthy dashboards)); [inversion H; reflexivity |].
    apply bind_inv in H as [(? & ? & _ & H) | (? & _ & [=])].
    apply bind_inv in H as [(? & ? & _ & H) | (? & _ & [=])].
    apply bind_inv in H as [(? & ? & _ & H) | (? & _ & [=])].
    apply bind_inv in H as [(? & ? & _ & H) | (? & _ & [=])].
    inversion H. }
  intros H. unfold export_all in H.
  apply bind_inv in H as [(connected & st1 & H1 & H) | (? & _ & [=])].
  destruct (keeps_quiet_test_connection env self _ _ _ H1) as [Q1 _].
  destruct connected; cbn [negb] in H; [| inversion H; subst; exact Q1].
  apply bind_inv in H as [(folders & st2 & H2 & H) | (? & _ & [=])].
  destruct (keeps_quiet_get_folders env self _ _ _ H2) as [Q2 _].
  apply bind_inv in H as [(b1 & st3 & H3 & H) | (? & _ & [=])].
  assert (Q3 : quiet self st2 st3).
  { destruct include_datasources.
    - destruct (keeps_quiet_export_datasources env self _ _ _ H3) as [Q3 _]. exact Q3.
    - inversion H3; subst. reflexivity. }
  apply bind_inv in H as [(b2 & st4 & H4 & H) | (? & _ & [=])].
  assert (Q4 : quiet self st3 st4).
  { destruct include_alerts.
    - destruct (keeps_quiet_export_alerts env self _ _ _ H4) as [Q4 _]. exact Q4.
    - inversion H4; subst. reflexivity. }
  assert (Q : quiet self st st4).
  { repeat (etransitivity; [eassumption |]). reflexivity. }
  destruct (truthy_opt folder_filter).
  - apply bind_inv in H as [(folder_id & st5 & H5 & H) | (? & _ & [=])].
    destruct (keeps_quiet_find_folder_id self _ _ _ _ _ H5) as [Q5 _].
    destruct (is_none folder_id).
    + inversion H; subst. etransitivity; eassumption.
    + apply bind_inv in H as [(dashboards & st6 & H6 & H) | (? & _ & [=])].
      destruct (keeps_quiet_get_dashboards env self _ _ _ _ _ H6) as [Q6 _].
      apply Hfound in H. subst st_end.
      repeat (etransitivity; [eassumption |]). reflexivity.
  - apply bind_inv in H as [(dashboards & st6 & H6 & H) | (? & _ & [=])].
    destruct (keeps_quiet_get_dashboards env self _ _ _ _ _ H6) as [Q6 _].
    apply Hfound in H. subst st_end. etransitivity; eassumption.
Qed.

End Fatal.


Lemma run_returns {A} (m : M A) (st : State) (a : A) :
  fst (m st) = Ret a -> m st = (Ret a, snd (m st)).
Proof. destruct (m st) as [r st']. cbn. intros ->. reflexivity. Qed.

Lemma mock_discovery :
  reaches_discovery mock_env sample_self true true sample_state
    [root_folder; ops_folder] mock_discovered.
Proof.
  unfold mock_discovered. eexists _, _, _, _, _.
  repeat split; apply run_returns; vm_compute; reflexivity.
Qed.

Lemma fatal_conditions_end_the_run_early_witness :
  (let run := export_all down_env sample_self false true true None None sample_state in
   fst run = Ret false /\ detail_fetches (snd run) = [] /\
   files (snd run) !! report_key sample_self = None) /\
  (let run := export_all mock_env sample_self false true true
                         (Some (lit "Prod")) None sample_state in
   fst run = Ret false /\ detail_fetches (snd run) = [] /\
   files (snd run) !! report_key sample_self = None).
Proof.
  split.
  - destruct (fatal_conditions_end_the_run_early down_env sample_self false true true
                None None sample_state
                (snd (test_connection down_env sample_self sample_state)))
      as (Hrun & Hfetch & Hreport).
    + apply connection_failed. apply run_returns. vm_compute. reflexivity.
    + cbv zeta. rewrite Hrun. repeat split; assumption.
  - destruct (fatal_conditions_end_the_run_early mock_env sample_self false true true
                (Some (lit "Prod")) None sample_state mock_discovered)
      as (Hrun & Hfetch & Hreport).
    + eapply folder_not_found; [exact mock_discovery | reflexivity | discriminate |].
      intros folder Hf.
      apply elem_of_cons in Hf as [-> | Hf];
        [eexists _, _; repeat split; reflexivity |].
      apply elem_of_cons in Hf as [-> | Hf];
        [eexists _, _; repeat split; reflexivity |].
      inversion Hf.
    + cbv zeta. rewrite Hrun. repeat split; assumption.
Defined.

(** ** The report *)

Lemma keeps_bind_returned (R : State -> State -> Prop) `{!PreOrder R} bad
    {A B} (m : M A) (k : A -> M B) :
  keeps R bad m ->
  (forall a, (exists st st', m st = (Ret a, st')) -> keeps R bad (k a)) ->
  keeps R bad (bind m k).
Proof.
  intros Hm Hk st r st' H.
  apply bind_inv in H as [(a & st1 & H1 & H2) | (e & H1 & ->)].
  - destruct (Hm _ _ _ H1) as [R1 _].
    destruct (Hk a ltac:(eauto) _ _ _ H2) as [R2 Hr].
    split; [etransitivity; eassumption | exact Hr].
  - destruct (Hm _ _ _ H1) as [R1 Hr]. split; [exact R1 |].
    intros e' [= <-]. apply Hr. reflexivity.
Qed.

Lemma keeps_wp (R : State -> State -> Prop) bad {A} (m : M A)
    (Q : result A -> State -> Prop) st :
  keeps R bad m ->
  (forall r st', R st st' -> (forall e, r = Raise e -> ~ bad e) -> Q r st') ->
  wp m Q st.
Proof.
  intros Hm HQ. unfold wp. destruct (m st) as [r st'] eqn:E.
  destruct (Hm _ _ _ E). apply HQ; assumption.
Qed.

#[local] Instance report_grows_preorder self : PreOrder (report_grows self).
Proof.
  split.
  - intros st. repeat split. intros lines H. exists []. rewrite app_nil_r. exact H.
  - intros a b c (? & ? & ? & Hab) (? & ? & ? & Hbc).
    repeat split; try congruence.
    intros lines Hl. destruct (Hab _ Hl) as (rest1 & Hl1).
    destruct (Hbc _ Hl1) as (rest2 & Hl2).
    exists (rest1 ++ rest2). rewrite app_assoc. exact Hl2.
Qed.

Lemma is_division_error_only e : is_division_error e -> e = ZeroDivisionError.
Proof. auto. Qed.

Section Report.

Context (env : Env) (self : GrafanaExporter).

Lemma report_grows_f_write l st :
  report_grows self st (snd (f_write (report_path self) l st)).
Proof.
  repeat split. intros lines H. exists [l].
  change (report_key self) with (resolve (report_path self)) in *.
  cbn [f_write snd files]. rewrite lookup_alter_eq, H. reflexivity.
Qed.

Lemma keeps_f_write l :
  keeps (report_grows self) is_division_error (f_write (report_path self) l).
Proof.
  apply keeps_effect; try apply _; [intros st; eexists; reflexivity |].
  apply report_grows_f_write.
Qed.

Lemma keeps_write_lines lines :
  keeps (report_grows self) is_division_error (write_lines (report_path self) lines).
Proof.
  induction lines as [| l rest IH]; cbn [write_lines].
  - apply keeps_ret. apply _.
  - apply keeps_bind; [apply _ | apply keeps_f_write | intros _; exact IH].
Qed.

Lemma keeps_report_folders folders :
  keeps (report_grows self) is_division_error
        (report_folders env self (report_path self) folders).
Proof.
  induction folders as [| folder rest IH]; cbn [report_folders].
  - apply keeps_ret. apply _.
  - apply keeps_bind;
      [apply _ | apply keeps_getitem; [apply _ | apply is_division_error_only] |].
    intros title.
    apply keeps_bind;
      [apply _ | apply keeps_safe_filename_of; [apply _ | apply is_division_error_only] |].
    intros folder_name.
    apply keeps_bind; [apply _ | apply keeps_get_state; apply _ |]. intros st.
    apply keeps_bind; [apply _ | | intros _; exact IH].
    destruct (path_exists st _); [apply keeps_f_write | apply keeps_ret; apply _].
Qed.

Lemma keeps_report_listing folder_dirs :
  keeps (report_grows self) is_division_error
        (report_listing (report_path self) folder_dirs).
Proof.
  induction folder_dirs as [| folder_dir rest IH]; cbn [report_listing].
  - apply keeps_ret. apply _.
  - apply keeps_bind; [apply _ | apply keeps_f_write |]. intros _.
    apply keeps_bind; [apply _ | apply keeps_get_state; apply _ |]. intros st.
    apply keeps_bind; [apply _ | apply keeps_write_lines |]. intros _.
    apply keeps_bind; [apply _ | apply keeps_f_write | intros _; exact IH].
Qed.

(** The run of [generate_report]: the lines down to the row of failures
    are written from the arguments; then the rate is computed, and the
    division faults exactly when [total_count] is 0. *)
Lemma generate_report_wp exported_count total_count folders st :
  wp (generate_report env self exported_count total_count folders)
     (fun r st' =>
        requests st' = requests st /\ sleeps st' = sleeps st /\ dirs st' = dirs st /\
        (total_count = 0 ->
         r = Raise ZeroDivisionError /\
         files st' !! report_key self =
           Some (FReport (summary_head self (now env (ticks st))
                            (Z.of_nat (length folders)) total_count exported_count))) /\
        (total_count <> 0 ->
         r <> Raise ZeroDivisionError /\
         exists rest,
           files st' !! report_key self =
             Some (FReport (summary_rows self (now env (ticks st))
                              (Z.of_nat (length folders)) total_count exported_count
                            ++ rest))))
     st.
Proof.
  unfold generate_report. fold (report_path self).
  apply wp_bind. unfold wp at 1, get_state at 1. cbn [fst snd].
  apply wp_bind. unfold wp at 1, write_file at 1. cbn [fst snd].
  do 1 (apply wp_bind; unfold wp at 1, f_write at 1; cbn [fst snd files]).
  apply wp_bind. unfold wp at 1, read_clock at 1. cbn [fst snd ticks].
  do 10 (apply wp_bind; unfold wp at 1, f_write at 1; cbn [fst snd files]).
  match goal with |- wp _ _ ?s => set (st1 := s) end.
  assert (Hlog : requests st1 = requests st /\ sleeps st1 = sleeps st /\
                 dirs st1 = dirs st) by (repeat split).
  assert (Hhead : files st1 !! report_key self =
            Some (FReport (summary_head self (now env (ticks st))
                             (Z.of_nat (length folders)) total_count exported_count))).
  { subst st1. change (report_key self) with (resolve (report_path self)).
    cbn [f_write write_file read_clock get_state fst snd files ticks].
    rewrite !lookup_alter_eq, lookup_insert_eq. reflexivity. }
  clearbody st1. destruct Hlog as (Hrq & Hsl & Hdirs).
  apply wp_bind.
  destruct (total_count =? 0) eqn:Ezero.
  - apply Z.eqb_eq in Ezero. apply wp_raise.
    do 3 (split; [assumption |]). split; [| intros Hz; contradiction].
    intros _. split; [reflexivity | exact Hhead].
  - apply Z.eqb_neq in Ezero.
    unfold wp at 1. cbn [f_write fst].
    match goal with |- wp _ _ ?s => set (st2 := s) end.
    assert (Hlog : requests st2 = requests st /\ sleeps st2 = sleeps st /\
                   dirs st2 = dirs st) by (repeat split; assumption).
    assert (Hrows : files st2 !! report_key self =
              Some (FReport (summary_rows self (now env (ticks st))
                               (Z.of_nat (length folders)) total_count exported_count))).
    { subst st2. change (report_key self) with (resolve (report_path self)) in *.
      cbn [f_write snd files]. rewrite lookup_alter_eq, Hhead. reflexivity. }
    clearbody st2. destruct Hlog as (Hrq2 & Hsl2 & Hdirs2).
    eapply (keeps_wp (report_grows self) is_division_error).
    + apply keeps_bind; [apply _ | apply keeps_f_write |]. intros _.
      apply keeps_bind; [apply _ | apply keeps_report_folders |]. intros _.
      apply keeps_bind; [apply _ | apply keeps_f_write |]. intros _.
      apply keeps_bind; [apply _ | apply keeps_report_listing |]. intros _.
      match goal with
      | |- keeps _ _ (match ?l with _ => _ end) => destruct l
      end; [apply keeps_ret; apply _ |].
      apply keeps_bind; [apply _ | apply keeps_f_write |]. intros _.
      apply keeps_write_lines.
    + intros r st' (Hrq' & Hsl' & Hdirs' & Hgrow) Hexn.
      do 3 (split; [congruence |]). split; [intros Hz; contradiction |].
      intros _. split.
      * intros ->. exact (Hexn _ eq_refl eq_refl).
      * apply Hgrow. exact Hrows.
Qed.

End Report.





(** ** No division by zero *)

#[local] Instance any_step_preorder : PreOrder any_step.
Proof. split; repeat intro; exact I. Qed.

Ltac no_division :=
  unfold never_divides in *;
  repeat first
    [ apply keeps_ret; apply _
    | apply keeps_raise; try apply _; unfold is_division_error; discriminate
    | apply keeps_getitem; [apply _ | apply is_division_error_only]
    | apply keeps_py_get; [apply _ | apply is_division_error_only]
    | apply keeps_py_len; [apply _ | apply is_division_error_only]
    | apply keeps_py_insert0; [apply _ | apply is_division_error_only]
    | apply keeps_safe_filename_of; [apply _ | apply is_division_error_only]
    | apply keeps_get_state; apply _
    | apply keeps_api_request;
        [apply _ | apply is_division_error_only | intros; exact I | intros; exact I]
    | apply keeps_effect; try apply _;
        [intros ?; eexists; reflexivity | intros ?; exact I]
    | solve [eauto]
    | apply keeps_bind; [apply _ | | intros ?]
    | match goal with
      | |- keeps _ _ (if ?b then _ else _) => destruct b
      | |- keeps _ _ (py_in _ ?v) => unfold py_in; destruct v
      | |- keeps _ _ (py_iter ?v) => unfold py_iter; destruct v
      end ].

Section NoDivision.

Context (env : Env) (self : GrafanaExporter).

Lemma never_divides_test_connection : never_divides (test_connection env self).
Proof. unfold test_connection, api_get. no_division. Qed.

Lemma never_divides_get_folders : never_divides (get_folders env self).
Proof. unfold get_folders, api_get. no_division. Qed.

Lemma never_divides_export_datasources : never_divides (export_datasources env self).
Proof. unfold export_datasources, api_get. no_division. Qed.

Lemma never_divides_export_alerts : never_divides (export_alerts env self).
Proof. unfold export_alerts, api_get. no_division. Qed.

Lemma never_divides_get_dashboards folder_id tag :
  never_divides (get_dashboards env self folder_id tag).
Proof. unfold get_dashboards, api_get. no_division. Qed.

Lemma never_divides_find_folder_id folders name :
  never_divides (find_folder_id folders name).
Proof.
  unfold never_divides.
  induction folders as [| folder rest IH]; cbn [find_folder_id]; no_division.
Qed.

Lemma never_divides_export_dashboard info include_permissions :
  never_divides (export_dashboard env self info include_permissions).
Proof.
  unfold export_dashboard, get_dashboard_permissions, api_get. no_division.
Qed.

Lemma never_divides_export_each dashboards include_permissions :
  forall exported_count,
    never_divides (export_each env self dashboards include_permissions exported_count).
Proof.
  unfold never_divides.
  induction dashboards as [| d rest IH]; intros c; cbn [export_each].
  - no_division.
  - apply keeps_bind; [apply _ | apply never_divides_export_dashboard |].
    intros ok. apply IH.
Qed.

Lemma never_divides_generate_report exported_count total_count folders :
  total_count <> 0 ->
  never_divides (generate_report env self exported_count total_count folders).
Proof.
  intros Hnz st r st' Hrun. split; [exact I |].
  pose proof (wp_run _ _ _ _ _
                (generate_report_wp env self exported_count total_count folders st) Hrun)
    as (_ & _ & _ & _ & Hrows).
  destruct (Hrows Hnz) as (Hr & _).
  intros e -> He. rewrite He in Hr. apply Hr. reflexivity.
Qed.

(** The length of a value that is true is at least 1. *)
Lemma py_len_truthy dashboards total st st' :
  truthy dashboards = true ->
  py_len dashboards st = (Ret total, st') ->
  1 <= total.
Proof.
  intros Htrue Hlen.
  destruct dashboards as [| | | s | l | items]; try discriminate Hlen;
    inversion Hlen; subst.
  - destruct s; [discriminate Htrue | cbn; lia].
  - destruct l; [discriminate Htrue | cbn; lia].
  - destruct items; [discriminate Htrue | cbn; lia].
Qed.

Lemma never_divides_export_found dashboards folders include_permissions :
  never_divides (export_found env self dashboards folders include_permissions).
Proof.
  unfold never_divides, export_found.
  destruct (truthy dashboards) eqn:Htrue; cbn [negb]; [| no_division].
  apply keeps_bind; [apply _ | no_division |]. intros items.
  apply keeps_bind; [apply _ | apply never_divides_export_each |]. intros n.
  apply keeps_bind_returned; [apply _ | no_division |].
  intros total (st & st' & Hlen).
  apply keeps_bind; [apply _ | | intros ?; no_division].
  apply never_divides_generate_report.
  pose proof (py_len_truthy _ _ _ _ Htrue Hlen). lia.
Qed.

Lemma never_divides_export_all include_permissions include_datasources include_alerts
    folder_filter tag_filter :
  never_divides (export_all env self include_permissions include_datasources
                            include_alerts folder_filter tag_filter).
Proof.
  pose proof never_divides_test_connection.
  pose proof never_divides_get_folders.
  pose proof never_divides_export_datasources.
  pose proof never_divides_export_alerts.
  pose proof never_divides_get_dashboards.
  pose proof never_divides_find_folder_id.
  pose proof never_divides_export_found.
  unfold never_divides in *. unfold export_all.
  repeat first
    [ solve [auto]
    | apply keeps_ret; apply _
    | apply keeps_bind; [apply _ | | intros ?]
    | match goal with
      | |- keeps _ _ (if ?b then _ else _) => destruct b
      end ].
Qed.

End NoDivision.


(** The call of [generate_report] in [export_all]: it comes after the
    loop, and its total is the length of a dashboard list that is not
    empty. *)
Lemma export_found_calls_generate_report env self dashboards folders
    include_permissions st items n st1 :
  truthy dashboards = true ->
  py_iter dashboards st = (Ret items, st) ->
  export_each env self items include_permissions 0 st = (Ret n, st1) ->
  exists total,
    1 <= total /\
    py_len dashboards st1 = (Ret total, st1) /\
    export_found env self dashboards folders include_permissions st =
      (let* _ := generate_report env self n total folders in ret true) st1.
Proof.
  intros Htrue Hiter Heach.
  assert (Hlen : exists total, py_len dashboards st1 = (Ret total, st1)).
  { destruct dashboards; try discriminate Hiter; eexists; reflexivity. }
  destruct Hlen as (total & Hlen). exists total.
  split; [exact (py_len_truthy _ _ _ _ Htrue Hlen) |]. split; [exact Hlen |].
  unfold export_found. rewrite Htrue. cbn [negb].
  rewrite (bind_Ret _ _ _ _ _ Hiter), (bind_Ret _ _ _ _ _ Heach),
          (bind_Ret _ _ _ _ _ Hlen).
  reflexivity.
Qed.

(** C10.  No run of [export_all] raises [ZeroDivisionError]: when it
    calls [generate_report], the total is at least 1, because an empty
    dashboard list ends the run before.  Called with a total of 0,
    [generate_report] raises [ZeroDivisionError]. *)
Theorem report_total_is_at_least_one (env : Env) (self : GrafanaExporter) :
  (forall include_permissions include_datasources include_alerts
          folder_filter tag_filter st,
     fst (export_all env self include_permissions include_datasources
                     include_alerts folder_filter tag_filter st)
       <> Raise ZeroDivisionError) /\
  (forall dashboards folders include_permissions st items n st1,
     truthy dashboards = true ->
     py_iter dashboards st = (Ret items, st) ->
     export_each env self items include_permissions 0 st = (Ret n, st1) ->
     exists total,
       1 <= total /\
       export_found env self dashboards folders include_permissions st =
         (let* _ := generate_report env self n total folders in ret true) st1) /\
  (forall exported_count folders st,
     fst (generate_report env self exported_count 0 folders st)
       = Raise ZeroDivisionError).
Proof.
  split; [| split].
  - intros ip ids ial ff tf st.
    destruct (export_all env self ip ids ial ff tf st) as [r st'] eqn:Hrun.
    destruct (never_divides_export_all env self ip ids ial ff tf _ _ _ Hrun) as [_ Hr].
    cbn. intros ->. exact (Hr _ eq_refl eq_refl).
  - intros dashboards folders ip st items n st1 Htrue Hiter Heach.
    destruct (export_found_calls_generate_report env self dashboards folders ip
                st items n st1 Htrue Hiter Heach) as (total & Hone & _ & Hrun).
    exists total. split; assumption.
  - intros e folders st.
    destruct (generate_report env self e 0 folders st) as [r st'] eqn:Hrun.
    pose proof (wp_run _ _ _ _ _ (generate_report_wp env self e 0 folders st) Hrun)
      as (_ & _ & _ & Hzero & _).
    destruct (Hzero eq_refl) as [-> _]. reflexivity.
Qed.

Lemma report_total_is_at_least_one_witness :
  exists total,
    1 <= total /\
    export_found mock_env sample_self (JArr mock_dashboards) [root_folder; ops_folder]
                 false mock_discovered =
      (let* _ := generate_report mock_env sample_self 2 total [root_folder; ops_folder]
       in ret true)
        (snd (export_each mock_env sample_self mock_dashboards false 0 mock_discovered)).
Proof.
  destruct (report_total_is_at_least_one mock_env sample_self) as (_ & Hcall & _).
  apply (Hcall (JArr mock_dashboards) [root_folder; ops_folder] false mock_discovered
               mock_dashboards 2).
  - reflexivity.
  - reflexivity.
  - vm_compute. reflexivity.
Defined.

(** ** Methods that return *)









(** ** The loop over the dashboards *)

Lemma bind_assoc {A B C} (m : M A) (k : A -> M B) (h : B -> M C) st :
  bind (bind m k) h st = bind m (fun a => bind (k a) h) st.
Proof. unfold bind. destruct (m st) as [[a | e] st1]; reflexivity. Qed.

Section Loop.

Context (env : Env) (self : GrafanaExporter) (include_permissions : bool).

Lemma export_each_app (before rest : list json) :
  forall exported_count st,
    export_each env self (before ++ rest) include_permissions exported_count st =
    (let* n := export_each env self before include_permissions exported_count in
     export_each env self rest include_permissions n) st.
Proof.
  induction before as [| d before IH]; intros c st; cbn [app export_each].
  - reflexivity.
  - rewrite bind_assoc.
    destruct (export_dashboard env self d include_permissions st) as [[ok | e] st1] eqn:Hd.
    + rewrite !(bind_Ret _ _ _ _ _ Hd). apply IH.
    + rewrite !(bind_Raise _ _ _ _ _ Hd). reflexivity.
Qed.

Lemma export_each_bounds (dashboards : list json) :
  forall exported_count st n st',
    export_each env self dashboards include_permissions exported_count st = (Ret n, st') ->
    exported_count <= n <= exported_count + Z.of_nat (length dashboards).
Proof.
  induction dashboards as [| d rest IH]; intros c st n st' H; cbn [export_each] in H.
  - inversion H; subst. cbn. lia.
  - apply bind_inv in H as [(ok & st1 & _ & H) | (e & _ & [=])].
    apply IH in H. cbn [length]. destruct ok; lia.
Qed.


End Loop.





(** ** A whole run

    The small Grafana: two folders with the root, three dashboards of
    which one cannot be fetched.  The run returns [True]; it has written
    [folders.json], [datasources.json], two dashboard files in two folders
    and the report, whose summary counts 2 folders and 2 of 3 dashboards. *)
Example whole_run_on_the_small_grafana :
  let run := export_all mock_env sample_self false true true None None sample_state in
  let session := export_dir sample_self in
  fst run = Ret true /\
  sleeps (snd run) = [1; 2; 1; 2] /\
  size (files (snd run)) = 5%nat /\
  files (snd run) !! (session ++ [lit "folders.json"])
    = Some (FJson (JArr [root_folder; ops_folder])) /\
  files (snd run) !! (session ++ [lit "alerts.json"]) = None /\
  is_Some (files (snd run) !! (session ++ [lit "Ops"; lit "Load_a.json"])) /\
  files (snd run) !! (session ++ [lit "Ops"; lit "Disk_b.json"]) = None /\
  is_Some (files (snd run) !! (session ++ [lit "General"; lit "Home_c.json"])) /\
  take 12 (report_lines sample_self (snd run)) =
    summary_rows sample_self (sample_clock 3) 2 3 2.
Proof. vm_compute. repeat split; eexists; reflexivity. Qed.

(** * Further properties *)

(** ** File names, again *)

Lemma replace_unsafe_safe (c : N) :
  is_unsafe (if is_unsafe c then underscore else c) = false.
Proof. destruct (is_unsafe c) eqn:E; [reflexivity | exact E]. Qed.

Lemma safe_filename_unfold (name : str) :
  safe_filename name =
  take 100 ((fun c => if is_unsafe c then underscore else c) <$> name).
Proof.
  unfold safe_filename. cbv zeta.
  destruct (100 <? length _)%nat eqn:E; [reflexivity |].
  apply Nat.ltb_ge in E. rewrite take_ge by exact E. reflexivity.
Qed.

(** X1.  Sanitising a sanitised name changes nothing. *)
Theorem safe_filename_idempotent (name : str) :
  safe_filename (safe_filename name) = safe_filename name.
Proof.
  rewrite (safe_filename_unfold (safe_filename name)).
  rewrite take_ge.
  - rewrite <- (list_fmap_id (safe_filename name)) at 2.
    apply list_fmap_ext. intros i c Hc. cbn.
    apply list_elem_of_lookup_2 in Hc. apply safe_filename_elem in Hc.
    rewrite Hc. reflexivity.
  - rewrite length_fmap. apply safe_filename_length.
Qed.

(** X2.  The sanitised name has the first 100 characters of the name,
    each in its place, with an underscore for each character of the
    class; its length is the length of the name, or 100 for a longer
    one. *)
Theorem safe_filename_pointwise (name : str) :
  length (safe_filename name) = Nat.min 100 (length name) /\
  forall i, (i < 100)%nat ->
    safe_filename name !! i =
    (fun c => if is_unsafe c then underscore else c) <$> (name !! i).
Proof.
  rewrite safe_filename_unfold. split.
  - rewrite length_take, length_fmap. reflexivity.
  - intros i Hi.
    etransitivity; [apply lookup_take_lt; exact Hi | apply list_lookup_fmap].
Qed.

Lemma safe_filename_pointwise_witness :
  safe_filename (lit "a/b") !! 1%nat = Some underscore.
Proof.
  destruct (safe_filename_pointwise (lit "a/b")) as [_ H].
  rewrite (H 1%nat) by lia. reflexivity.
Defined.

(** X3.  The names that sanitising leaves as they are: those of at most
    100 characters that hold no character of the class. *)
Theorem safe_filename_fixed_iff (name : str) :
  safe_filename name = name <->
  (forall c, c ∈ name -> is_unsafe c = false) /\ (length name <= 100)%nat.
Proof.
  split.
  - intros E. split.
    + intros c Hc. rewrite <- E in Hc. exact (safe_filename_elem _ _ Hc).
    + rewrite <- E. apply safe_filename_length.
  - intros [Hsafe Hlen]. rewrite safe_filename_unfold.
    rewrite take_ge by (rewrite length_fmap; exact Hlen).
    rewrite <- (list_fmap_id name) at 2.
    apply list_fmap_ext. intros i c Hc. cbn.
    apply list_elem_of_lookup_2 in Hc. rewrite (Hsafe _ Hc). reflexivity.
Qed.

Lemma safe_filename_fixed_iff_witness :
  safe_filename (lit "General") = lit "General".
Proof.
  apply (safe_filename_fixed_iff (lit "General")). split.
  - intros c Hc. apply list_elem_of_In in Hc. cbn in Hc.
    repeat (destruct Hc as [<- | Hc]; [reflexivity |]). destruct Hc.
  - cbn. lia.
Defined.

(** X4.  With the title fixed, the file name of a dashboard tells the
    uid; without, it does not tell the pair: the uid [u_v] under the title
    [t] and the uid [v] under the title [t_u] give one file name. *)
Theorem dashboard_filename_uid env (safe_title u v : str) :
  (dashboard_filename env safe_title (JStr u) =
   dashboard_filename env safe_title (JStr v) -> u = v) /\
  dashboard_filename env safe_title (JStr (u ++ lit "_" ++ v)) =
  dashboard_filename env (safe_title ++ lit "_" ++ u) (JStr v).
Proof.
  unfold dashboard_filename. cbn [format]. split.
  - intros E. apply app_inv_head in E. apply app_inv_head in E.
    apply app_inv_tail in E. exact E.
  - rewrite <- !app_assoc. reflexivity.
Qed.


Lemma dashboard_filename_uid_witness :
  dashboard_filename dashboard_env (lit "cpu") (JStr (lit "load_x1")) =
  dashboard_filename dashboard_env (lit "cpu_load") (JStr (lit "x1")) /\
  lit "x1" = lit "x1".
Proof.
  destruct (dashboard_filename_uid dashboard_env (lit "cpu") (lit "load") (lit "x1"))
    as [_ Hclash].
  destruct (dashboard_filename_uid dashboard_env (lit "cpu") (lit "x1") (lit "x1"))
    as [Huid _].
  split; [exact Hclash | apply Huid; reflexivity].
Defined.

(** ** The retry loop, again *)

Lemma total_wait_doubling (k : nat) :
  total_wait (doubling_waits k) = 2 ^ Z.of_nat k - 1.
Proof.
  unfold doubling_waits, total_wait.
  induction k as [| k IH]; [reflexivity |].
  rewrite seq_S, fmap_app, foldr_app. cbn [fmap list_fmap foldr Nat.add].
  assert (Hadd : forall (l : list Z) a, foldr Z.add a l = foldr Z.add 0 l + a).
  { induction l as [| x l IHl]; intros a; cbn [foldr]; [lia | rewrite IHl; lia]. }
  rewrite Hadd, IH. rewrite Nat2Z.inj_succ, Z.pow_succ_r by lia. lia.
Qed.

Section ApiRequestAgain.

Context (env : Env) (self : GrafanaExporter).
Context (endpoint method : str) (data : json) (m : Method).
Hypothesis method_ok : classify_method method = Some m.

Lemma after_attempts_more (st : State) (rq : Request) (k k' : nat) (w w' : list Z) :
  after_attempts (after_attempts st rq k w) rq k' w' =
  after_attempts st rq (k + k') (w ++ w').
Proof.
  unfold after_attempts. cbn [requests sleeps ticks dirs files].
  rewrite <- !app_assoc, replicate_add. reflexivity.
Qed.

(** One attempt that succeeds. *)
Lemma api_request_from_succeeds (remaining : nat) (attempt retries : Z)
    (parsed : json) (st : State) :
  attempt_result
    (http_answer env (length (requests st)) (request_of self m endpoint data))
    = Some parsed ->
  api_request_from env self (S remaining) attempt endpoint method data retries st =
  (Ret parsed, after_attempts st (request_of self m endpoint data) 1 []).
Proof.
  intros Hok. cbn [api_request_from]. rewrite method_ok.
  unfold bind at 1. unfold send at 1. rewrite Hok.
  unfold ret, after_attempts. cbn [replicate]. rewrite app_nil_r. reflexivity.
Qed.

(** The last attempt, when it fails. *)
Lemma api_request_from_gives_up (remaining : nat) (retries : Z) (st : State) :
  attempt_result
    (http_answer env (length (requests st)) (request_of self m endpoint data))
    = None ->
  api_request_from env self (S remaining) (retries - 1) endpoint method data retries st =
  (Ret JNull, after_attempts st (request_of self m endpoint data) 1 []).
Proof.
  intros Hfail. cbn [api_request_from]. rewrite method_ok.
  unfold bind at 1. unfold send at 1. rewrite Hfail, Z.eqb_refl.
  unfold ret, after_attempts. cbn [replicate]. rewrite app_nil_r. reflexivity.
Qed.

Lemma length_requests_after (st : State) (rq : Request) (k : nat) (w : list Z) :
  length (requests (after_attempts st rq k w)) = (length (requests st) + k)%nat.
Proof. cbn. rewrite length_app, length_replicate. reflexivity. Qed.

(** Among the first [bound] attempts, either all fail or there is a first
    one that succeeds. *)
Lemma first_success_or_none (st : State) (bound : nat) :
  (forall i, (i < bound)%nat -> fails_at env st (request_of self m endpoint data) i) \/
  exists n parsed,
    (n < bound)%nat /\
    (forall i, (i < n)%nat -> fails_at env st (request_of self m endpoint data) i) /\
    attempt_result
      (http_answer env (length (requests st) + n) (request_of self m endpoint data))
      = Some parsed.
Proof.
  induction bound as [| bound IH].
  - left. intros i Hi. lia.
  - destruct IH as [Hall | (n & parsed & Hn & Hfail & Hok)].
    + destruct (attempt_result
                  (http_answer env (length (requests st) + bound)
                               (request_of self m endpoint data))) as [parsed |] eqn:E.
      * right. exists bound, parsed. repeat split; [lia | exact Hall | exact E].
      * left. intros i Hi. destruct (decide (i = bound)) as [-> | Hne].
        -- exact E.
        -- apply Hall. lia.
    + right. exists n, parsed. repeat split; [lia | exact Hfail | exact Hok].
Qed.

(** X5.  The loop stops at the first attempt that succeeds, also when
    the budget allows more: after [n] failed attempts and one that
    succeeds, [api_request] has made [n + 1] calls, has slept 1, 2, ...,
    [2^(n-1)] and returns the parsed body. *)
Theorem api_request_stops_at_first_success (n : nat) (retries : Z)
    (parsed : json) (st : State) :
  Z.of_nat n < retries ->
  (forall i, (i < n)%nat -> fails_at env st (request_of self m endpoint data) i) ->
  attempt_result
    (http_answer env (length (requests st) + n) (request_of self m endpoint data))
    = Some parsed ->
  api_request env self endpoint method data retries st =
  (Ret parsed,
   after_attempts st (request_of self m endpoint data) (S n) (doubling_waits n)).
Proof.
  intros Hn Hfail Hok. unfold api_request.
  replace (Z.to_nat retries) with (n + S (Z.to_nat retries - S n))%nat by lia.
  rewrite (api_request_from_retry env self endpoint method data m method_ok
             retries n _ 0 st Hfail) by lia.
  rewrite (api_request_from_succeeds _ _ _ parsed)
    by (rewrite length_requests_after; exact Hok).
  rewrite after_attempts_more, app_nil_r, backoff_from_0.
  replace (n + 1)%nat with (S n) by lia. reflexivity.
Qed.

(** X6.  Whatever the server does, [api_request] with the method GET or
    POST raises nothing; it makes [k] calls with [k] at most [retries],
    none when [retries] is 0 or less and at least one otherwise; it
    sleeps after each call but the last, [2^(k-1) - 1] in all. *)
Theorem api_request_accounting (retries : Z) (st : State) :
  exists (k : nat) (answer : json),
    (k <= Z.to_nat retries)%nat /\
    (0 < retries -> (1 <= k)%nat) /\
    api_request env self endpoint method data retries st =
      (Ret answer,
       after_attempts st (request_of self m endpoint data) k (doubling_waits (k - 1))) /\
    total_wait (doubling_waits (k - 1)) = 2 ^ Z.of_nat (k - 1) - 1.
Proof.
  destruct (first_success_or_none st (Z.to_nat retries))
    as [Hall | (n & parsed & Hn & Hfail & Hok)].
  - exists (Z.to_nat retries), JNull.
    split; [lia |]. split; [lia |]. split; [| apply total_wait_doubling].
    unfold api_request. destruct (Z.to_nat retries) as [| n] eqn:En.
    + cbn [api_request_from]. unfold ret, doubling_waits. cbn [seq fmap list_fmap].
      rewrite after_no_attempts. reflexivity.
    + replace (S n) with (n + 1)%nat at 1 by lia.
      rewrite (api_request_from_retry env self endpoint method data m method_ok
                 retries n 1 0 st) by (try lia; intros; apply Hall; lia).
      replace (0 + Z.of_nat n) with (retries - 1) by lia.
      rewrite api_request_from_gives_up
        by (rewrite length_requests_after; apply (Hall n); lia).
      rewrite after_attempts_more, app_nil_r, backoff_from_0.
      replace (n + 1)%nat with (S n) by lia.
      replace (S n - 1)%nat with n by lia. reflexivity.
  - exists (S n), parsed.
    split; [lia |]. split; [lia |]. split; [| apply total_wait_doubling].
    unfold api_request.
    replace (Z.to_nat retries) with (n + S (Z.to_nat retries - S n))%nat by lia.
    rewrite (api_request_from_retry env self endpoint method data m method_ok
               retries n _ 0 st Hfail) by lia.
    rewrite (api_request_from_succeeds _ _ _ parsed)
      by (rewrite length_requests_after; exact Hok).
    rewrite after_attempts_more, app_nil_r, backoff_from_0.
    replace (n + 1)%nat with (S n) by lia.
    replace (S n - 1)%nat with n by lia. reflexivity.
Qed.

End ApiRequestAgain.


Lemma api_request_stops_at_first_success_witness :
  api_request flaky_env sample_self (lit "/api/user") (lit "get") JNull 10 sample_state =
  (Ret sample_user,
   after_attempts sample_state
     (request_of sample_self GET (lit "/api/user") JNull) 3 [1; 2]).
Proof.
  apply (api_request_stops_at_first_success flaky_env sample_self
           (lit "/api/user") (lit "get") JNull GET eq_refl 2 10 sample_user sample_state).
  - lia.
  - intros i Hi. destruct i as [| [| i]]; [reflexivity | reflexivity | lia].
  - reflexivity.
Defined.

Lemma api_request_accounting_witness :
  exists (k : nat) (answer : json),
    (k <= 3)%nat /\
    api_request down_env sample_self (lit "/api/folders") (lit "GET") JNull 3 sample_state =
      (Ret answer,
       after_attempts sample_state
         (request_of sample_self GET (lit "/api/folders") JNull) k
         (doubling_waits (k - 1))).
Proof.
  destruct (api_request_accounting down_env sample_self (lit "/api/folders") (lit "GET")
              JNull GET eq_refl 3 sample_state) as (k & answer & Hk & _ & Hrun & _).
  exists k, answer. split; [exact Hk | exact Hrun].
Defined.



(** ** The connectivity check, by the answer *)

(** X8.  [test_connection] says [True] for an answer that is an object
    with at least one key, and [False], without an exception, for [None]
    and for every empty or zero answer, the empty object among them; an
    answer that is true and no object makes it raise [AttributeError]. *)
Theorem test_connection_by_answer env self (st st1 : State) (answer : json) :
  api_get env self (lit "/api/user") st = (Ret answer, st1) ->
  test_connection env self st =
  (if truthy answer then
     match answer with
     | JObj _ => Ret true
     | _ => Raise AttributeError
     end
   else Ret false, st1).
Proof.
  intros Hcall. unfold test_connection. rewrite (bind_Ret _ _ _ _ _ Hcall).
  destruct (truthy answer) eqn:Htrue; [| reflexivity].
  destruct answer; try discriminate Htrue; reflexivity.
Qed.

Lemma test_connection_by_answer_witness :
  test_connection (steady_env (JObj [])) sample_self sample_state =
  (Ret false,
   after_attempts sample_state (request_of sample_self GET (lit "/api/user") JNull) 1 []).
Proof.
  apply (test_connection_by_answer (steady_env (JObj [])) sample_self sample_state
           _ (JObj [])).
  reflexivity.
Defined.

(** ** One dashboard, again *)

Section OneDashboard.

Context (env : Env) (self : GrafanaExporter) (include_permissions : bool).

(** An entry that is no search result makes [export_dashboard] raise
    before it does anything. *)
Lemma export_dashboard_malformed (info : json) (st : State) :
  ~ search_result info ->
  exists e, (e = TypeError \/ e = KeyError) /\
            export_dashboard env self info include_permissions st = (Raise e, st).
Proof.
  intros Hbad. unfold export_dashboard.
  destruct info as [| b | n | s | l | items];
    try (exists TypeError; split; [left; reflexivity | reflexivity]).
  unfold bind at 1, getitem.
  destruct (assoc (lit "uid") items) as [uid |] eqn:Huid;
    [| exists KeyError; split; [right; reflexivity | reflexivity]].
  cbn [ret]. unfold bind at 1.
  destruct (assoc (lit "title") items) as [title |] eqn:Htitle;
    [| exists KeyError; split; [right; reflexivity | reflexivity]].
  cbn [ret]. unfold bind at 1. cbn [py_get ret]. unfold bind at 1.
  destruct (default (JStr (lit "General")) (assoc (lit "folderTitle") items))
    as [| b | n | folder_title | l | fitems] eqn:Hfolder;
    try (exists TypeError; split; [left; reflexivity | reflexivity]).
  exfalso. apply Hbad. exists items, uid, title, folder_title. repeat split; assumption.
Qed.

(** X9.  Unlike a failed fetch, an entry of the dashboard list that is
    no search result (no object, no uid, no title, a folder title that is
    no string) ends the run with a [TypeError] or a [KeyError]: the
    dashboards after it are not exported and no report is generated. *)
Theorem malformed_entry_ends_the_run (folders before : list json) (d : json)
    (rest : list json) (n0 : Z) (st st1 : State) :
  export_each env self before include_permissions 0 st = (Ret n0, st1) ->
  ~ search_result d ->
  exists e,
    (e = TypeError \/ e = KeyError) /\
    export_found env self (JArr (before ++ d :: rest)) folders include_permissions st
      = (Raise e, st1).
Proof.
  intros Hbefore Hbad.
  destruct (export_dashboard_malformed d st1 Hbad) as (e & He & Hd).
  exists e. split; [exact He |].
  unfold export_found.
  replace (truthy (JArr (before ++ d :: rest))) with true
    by (destruct before; reflexivity).
  cbn [negb]. unfold bind at 1. cbn [py_iter ret].
  unfold bind at 1. rewrite export_each_app, (bind_Ret _ _ _ _ _ Hbefore).
  cbn [export_each]. rewrite (bind_Raise _ _ _ _ _ Hd). reflexivity.
Qed.


(** X11.  What a successful export writes, without permissions: the
    [dashboard] of the answer as it is, its [meta] or the empty object
    when it has none, the folder title and the time of export.  With
    permissions, the answer of the permission call is added when it is
    true, and left out otherwise. *)
Theorem export_dashboard_record (items ditems : list (str * json))
    (uid dashboard permissions : json) (title folder_title : str)
    (st st1 st2 : State) :
  assoc (lit "uid") items = Some uid ->
  assoc (lit "title") items = Some (JStr title) ->
  default (JStr (lit "General")) (assoc (lit "folderTitle") items) = JStr folder_title ->
  api_get env self (lit "/api/dashboards/uid/" ++ format (repr env) uid)
    (snd (mkdir (joinpath (export_dir self) (safe_filename folder_title)) st))
    = (Ret (JObj ditems), st1) ->
  assoc (lit "dashboard") ditems = Some dashboard ->
  get_dashboard_permissions env self uid (snd (read_clock (now env) st1))
    = (Ret permissions, st2) ->
  let record :=
    export_record dashboard (default (JObj []) (assoc (lit "meta") ditems))
                  folder_title (now env (ticks st1)) in
  let path := dashboard_path env self folder_title title uid in
  export_dashboard env self (JObj items) include_permissions st =
  if include_permissions then
    (Ret true,
     snd (write_file path
            (FJson (JObj (if truthy permissions
                          then record ++ [(lit "permissions", permissions)]
                          else record))) st2))
  else
    (Ret true,
     snd (write_file path (FJson (JObj record)) (snd (read_clock (now env) st1)))).
Proof.
  intros Huid Htitle Hfolder Hcall Hdash Hperm record path.
  unfold export_dashboard.
  unfold bind at 1, getitem. rewrite Huid. cbn [ret].
  unfold bind at 1. rewrite Htitle. cbn [ret].
  unfold bind at 1. cbn [py_get ret]. rewrite Hfolder.
  unfold bind at 1. cbn [safe_filename_of ret].
  unfold bind at 1.
  destruct (mkdir _ st) as [[[] | e] st0] eqn:Hmk; [| discriminate Hmk].
  assert (st0 = snd (mkdir (joinpath (export_dir self) (safe_filename folder_title)) st))
    as -> by (rewrite Hmk; reflexivity).
  rewrite (bind_Ret _ _ _ _ _ Hcall).
  assert (Htrue : truthy (JObj ditems) = true).
  { destruct ditems; [discriminate Hdash | reflexivity]. }
  rewrite Htrue. unfold bind at 1. cbn [py_in ret].
  rewrite bool_decide_eq_true_2 by (rewrite Hdash; eauto).
  unfold bind at 1. cbn [safe_filename_of ret].
  unfold bind at 1. cbn [getitem]. rewrite Hdash. cbn [ret].
  unfold bind at 1. cbn [py_get ret].
  unfold bind at 1. cbn [read_clock fst].
  destruct include_permissions.
  - unfold bind at 1. rewrite (bind_Ret _ _ _ _ _ Hperm).
    destruct (truthy permissions); reflexivity.
  - reflexivity.
Qed.

End OneDashboard.


Lemma malformed_entry_ends_the_run_witness :
  let a := sample_dashboard "a" "Load" (Some (lit "Ops")) in
  let c := sample_dashboard "c" "Home" None in
  exists e,
    (e = TypeError \/ e = KeyError) /\
    export_found mock_env sample_self
      (JArr ([a] ++ JObj [(lit "title", JStr (lit "No uid"))] :: [c]))
      [root_folder; ops_folder] false mock_discovered
    = (Raise e, snd (export_each mock_env sample_self [a] false 0 mock_discovered)).
Proof.
  intros a c.
  apply (malformed_entry_ends_the_run mock_env sample_self false
           [root_folder; ops_folder] [a] (JObj [(lit "title", JStr (lit "No uid"))]) [c] 1).
  - apply run_returns. vm_compute. reflexivity.
  - intros (items & uid & title & folder_title & [= <-] & Huid & _). discriminate Huid.
Defined.


Lemma export_dashboard_record_witness :
  let st1 := after_attempts (snd (mkdir [lit "grafana-exports";
                                         lit "export_20240101_000000"; lit "Ops"]
                                        sample_state))
               (request_of sample_self GET (lit "/api/dashboards/uid/u1") JNull) 1 [] in
  export_dashboard dashboard_env sample_self
    (sample_dashboard "u1" "CPU: load" (Some (lit "Ops"))) false sample_state =
  (Ret true,
   snd (write_file
          [lit "grafana-exports"; lit "export_20240101_000000"; lit "Ops";
           lit "CPU_ load_u1.json"]
          (FJson (JObj (export_record (JObj [(lit "panels", JArr [])]) (JObj [])
                                      (lit "Ops") (sample_clock 1))))
          (snd (read_clock sample_clock st1)))).
Proof.
  intros st1.
  apply (export_dashboard_record dashboard_env sample_self false
           [(lit "uid", JStr (lit "u1")); (lit "title", JStr (lit "CPU: load"));
            (lit "folderTitle", JStr (lit "Ops"))]
           [(lit "dashboard", JObj [(lit "panels", JArr [])])]
           (JStr (lit "u1")) (JObj [(lit "panels", JArr [])]) sample_detail
           (lit "CPU: load") (lit "Ops") sample_state st1
           (snd (get_dashboard_permissions dashboard_env sample_self (JStr (lit "u1"))
                   (snd (read_clock sample_clock st1))))).
  - reflexivity.
  - reflexivity.
  - reflexivity.
  - vm_compute. reflexivity.
  - reflexivity.
  - apply run_returns. vm_compute. reflexivity.
Defined.


(** ** A run only reads from the server *)

#[local] Instance reads_only_preorder self : PreOrder (reads_only self).
Proof.
  split.
  - intros st. exists []. split; [symmetry; apply app_nil_r | constructor].
  - intros a b c (n1 & H1 & F1) (n2 & H2 & F2). exists (n1 ++ n2). split.
    + rewrite H2, H1. symmetry. apply app_assoc.
    + apply Forall_app. split; assumption.
Qed.

Lemma reads_only_same_requests self st st' :
  requests st' = requests st -> reads_only self st st'.
Proof. intros H. exists []. split; [rewrite H; symmetry; apply app_nil_r | constructor]. Qed.

Section ReadsOnly.

Context (env : Env) (self : GrafanaExporter).

Lemma keeps_reads_api_get endpoint :
  starts_with (lit "/api/") endpoint = true ->
  keeps (reads_only self) no_exn (api_get env self endpoint).
Proof.
  intros Hendpoint. apply keeps_api_request; try apply _.
  - intros e [].
  - intros m [= <-] st. exists [request_of self GET endpoint JNull].
    split; [reflexivity |]. constructor; [| constructor].
    repeat split. exact Hendpoint.
  - intros t st. apply reads_only_same_requests. reflexivity.
Qed.

Ltac reads :=
  repeat first
    [ solve [eauto]
    | apply keeps_ret; apply _
    | apply keeps_raise; [apply _ | intros []]
    | apply keeps_getitem; [apply _ | intros ? []]
    | apply keeps_py_get; [apply _ | intros ? []]
    | apply keeps_py_len; [apply _ | intros ? []]
    | apply keeps_py_insert0; [apply _ | intros ? []]
    | apply keeps_safe_filename_of; [apply _ | intros ? []]
    | apply keeps_get_state; apply _
    | apply keeps_reads_api_get; reflexivity
    | apply keeps_effect; try apply _;
        [intros ?; eexists; reflexivity
        | intros ?; apply reads_only_same_requests; reflexivity]
    | apply keeps_bind; [apply _ | | intros ?]
    | match goal with
      | |- keeps _ _ (if ?b then _ else _) => destruct b
      | |- keeps _ _ (py_in _ ?v) => unfold py_in; destruct v
      | |- keeps _ _ (py_iter ?v) => unfold py_iter; destruct v
      end ].

Lemma keeps_reads_export_dashboard info include_permissions :
  keeps (reads_only self) no_exn (export_dashboard env self info include_permissions).
Proof. unfold export_dashboard, get_dashboard_permissions. reads. Qed.

Lemma keeps_reads_export_each dashboards include_permissions :
  forall exported_count,
    keeps (reads_only self) no_exn
          (export_each env self dashboards include_permissions exported_count).
Proof.
  induction dashboards as [| d rest IH]; intros c; cbn [export_each].
  - reads.
  - apply keeps_bind; [apply _ | apply keeps_reads_export_dashboard |].
    intros ok. apply IH.
Qed.

Lemma keeps_reads_generate_report exported_count total_count folders :
  keeps (reads_only self) no_exn
        (generate_report env self exported_count total_count folders).
Proof.
  intros st r st' Hrun.
  pose proof (wp_run _ _ _ _ _
                (generate_report_wp env self exported_count total_count folders st) Hrun)
    as (Hrq & _).
  split; [apply reads_only_same_requests; exact Hrq | intros e _ []].
Qed.

Lemma keeps_reads_find_folder_id folders name :
  keeps (reads_only self) no_exn (find_folder_id folders name).
Proof. induction folders as [| folder rest IH]; cbn [find_folder_id]; reads. Qed.

(** X12.  A run of [export_all] only reads from the server: whatever the
    options and the answers, and whether it returns or raises, every call
    it makes is a GET without a body, to the URL of the session, on an
    endpoint below [/api/].  It never posts. *)
Theorem export_all_only_reads
    (include_permissions include_datasources include_alerts : bool)
    (folder_filter tag_filter : option str) (st : State) :
  let run := export_all env self include_permissions include_datasources
                        include_alerts folder_filter tag_filter st in
  exists calls,
    requests (snd run) = requests st ++ calls /\
    Forall (fun rq => rq_method rq = GET /\ rq_base rq = url self /\
                      rq_body rq = JNull /\
                      starts_with (lit "/api/") (rq_endpoint rq) = true) calls.
Proof.
  intros run.
  assert (Hkeeps : keeps (reads_only self) no_exn
            (export_all env self include_permissions include_datasources
                        include_alerts folder_filter tag_filter)).
  { pose proof keeps_reads_export_each.
    pose proof keeps_reads_generate_report.
    pose proof keeps_reads_find_folder_id.
    unfold export_all, test_connection, get_folders, export_datasources,
      export_alerts, get_dashboards, export_found.
    reads. }
  destruct run as [r st'] eqn:Hrun. subst run.
  destruct (Hkeeps _ _ _ Hrun) as [(calls & Hcalls & Hall) _].
  exists calls. split; assumption.
Qed.

End ReadsOnly.


(** ** What a run that returns [False] leaves on the disk *)

#[local] Instance writes_within_preorder keys : PreOrder (writes_within keys).
Proof.
  split.
  - intros st. split; reflexivity.
  - intros a b c [D1 F1] [D2 F2]. split; [congruence |].
    intros k Hk. rewrite (F2 k Hk). apply F1, Hk.
Qed.

Lemma writes_within_same_store keys st st' :
  dirs st' = dirs st -> files st' = files st -> writes_within keys st st'.
Proof. intros D F. split; [exact D | intros k _; rewrite F; reflexivity]. Qed.

Section FalseRun.

Context (env : Env) (self : GrafanaExporter).
Context (include_permissions include_datasources include_alerts : bool).
Context (folder_filter tag_filter : option str).

Lemma keeps_within_api_get keys endpoint :
  keeps (writes_within keys) no_exn (api_get env self endpoint).
Proof.
  apply keeps_api_request; try apply _.
  - intros e [].
  - intros m _ st. apply writes_within_same_store; reflexivity.
  - intros t st. apply writes_within_same_store; reflexivity.
Qed.

Lemma keeps_within_write_file keys (name : str) c :
  resolve (joinpath (export_dir self) name) ∈ keys ->
  keeps (writes_within keys) no_exn (write_file (joinpath (export_dir self) name) c).
Proof.
  intros Hin. apply keeps_effect; try apply _.
  - intros st. eexists. reflexivity.
  - intros st. split; [reflexivity |].
    intros k Hk. cbn [write_file snd files]. apply lookup_insert_ne.
    intros <-. exact (Hk Hin).
Qed.

Ltac within :=
  repeat first
    [ solve [eauto]
    | apply keeps_ret; apply _
    | apply keeps_getitem; [apply _ | intros ? []]
    | apply keeps_py_get; [apply _ | intros ? []]
    | apply keeps_py_len; [apply _ | intros ? []]
    | apply keeps_py_insert0; [apply _ | intros ? []]
    | apply keeps_within_api_get
    | apply keeps_bind; [apply _ | | intros ?]
    | match goal with
      | |- keeps _ _ (if ?b then _ else _) => destruct b
      end ].

Lemma keeps_within_discovery :
  let keys := config_keys self include_datasources include_alerts in
  keeps (writes_within keys) no_exn (test_connection env self) /\
  keeps (writes_within keys) no_exn (get_folders env self) /\
  keeps (writes_within keys) no_exn
        (if include_datasources then export_datasources env self else ret false) /\
  keeps (writes_within keys) no_exn
        (if include_alerts then export_alerts env self else ret false) /\
  (forall folder_id tag,
     keeps (writes_within keys) no_exn (get_dashboards env self folder_id tag)) /\
  (forall folders name,
     keeps (writes_within keys) no_exn (find_folder_id folders name)).
Proof.
  intros keys.
  assert (Hfolders : resolve (joinpath (export_dir self) (lit "folders.json")) ∈ keys).
  { apply list_elem_of_fmap. exists (lit "folders.json"). split; [reflexivity | left]. }
  assert (Hsources : include_datasources = true ->
            resolve (joinpath (export_dir self) (lit "datasources.json")) ∈ keys).
  { intros ->. apply list_elem_of_fmap. exists (lit "datasources.json").
    split; [reflexivity | right; left]. }
  assert (Halerts : include_alerts = true ->
            resolve (joinpath (export_dir self) (lit "alerts.json")) ∈ keys).
  { intros ->. apply list_elem_of_fmap. exists (lit "alerts.json").
    split; [reflexivity |]. right. apply elem_of_app. right. left. }
  pose proof (fun c => keeps_within_write_file keys (lit "folders.json") c Hfolders).
  split; [unfold test_connection; within |].
  split; [unfold get_folders; within |].
  split.
  { destruct include_datasources eqn:E; [| within].
    pose proof (fun c => keeps_within_write_file keys (lit "datasources.json") c
                           (Hsources eq_refl)).
    unfold export_datasources. within. }
  split.
  { destruct include_alerts eqn:E; [| within].
    pose proof (fun c => keeps_within_write_file keys (lit "alerts.json") c
                           (Halerts eq_refl)).
    unfold export_alerts. within. }
  split; [intros folder_id tag; unfold get_dashboards; within |].
  intros folders name.
  induction folders as [| folder rest IH]; cbn [find_folder_id]; within.
Qed.

(** X13.  A run of [export_all] that returns [False] has made no
    directory and has written no file but [folders.json] and, when they
    were asked for, [datasources.json] and [alerts.json]: no dashboard
    file, no folder and no report. *)
Theorem false_run_writes_configuration_only (st st' : State) :
  export_all env self include_permissions include_datasources include_alerts
             folder_filter tag_filter st = (Ret false, st') ->
  dirs st' = dirs st /\
  forall k, k ∉ config_keys self include_datasources include_alerts ->
            files st' !! k = files st !! k.
Proof.
  destruct keeps_within_discovery as (K1 & K2 & K3 & K4 & K5 & K6).
  set (keys := config_keys self include_datasources include_alerts) in *.
  assert (Hfound : forall dashboards folders s s',
            export_found env self dashboards folders include_permissions s
              = (Ret false, s') -> s' = s).
  { intros dashboards folders s s' H. unfold export_found in H.
    destruct (negb (truthy dashboards)); [inversion H; reflexivity |].
    apply bind_inv in H as [(? & ? & _ & H) | (? & _ & [=])].
    apply bind_inv in H as [(? & ? & _ & H) | (? & _ & [=])].
    apply bind_inv in H as [(? & ? & _ & H) | (? & _ & [=])].
    apply bind_inv in H as [(? & ? & _ & H) | (? & _ & [=])].
    inversion H. }
  intros H. change (writes_within keys st st'). unfold export_all in H.
  apply bind_inv in H as [(connected & st1 & H1 & H) | (? & _ & [=])].
  destruct (K1 _ _ _ H1) as [Q1 _].
  destruct connected; cbn [negb] in H; [| inversion H; subst; exact Q1].
  apply bind_inv in H as [(folders & st2 & H2 & H) | (? & _ & [=])].
  destruct (K2 _ _ _ H2) as [Q2 _].
  apply bind_inv in H as [(b1 & st3 & H3 & H) | (? & _ & [=])].
  destruct (K3 _ _ _ H3) as [Q3 _].
  apply bind_inv in H as [(b2 & st4 & H4 & H) | (? & _ & [=])].
  destruct (K4 _ _ _ H4) as [Q4 _].
  assert (Q : writes_within keys st st4).
  { repeat (etransitivity; [eassumption |]). reflexivity. }
  destruct (truthy_opt folder_filter).
  - apply bind_inv in H as [(folder_id & st5 & H5 & H) | (? & _ & [=])].
    destruct (K6 _ _ _ _ _ H5) as [Q5 _].
    destruct (is_none folder_id).
    + inversion H; subst. etransitivity; eassumption.
    + apply bind_inv in H as [(dashboards & st6 & H6 & H) | (? & _ & [=])].
      destruct (K5 _ _ _ _ _ H6) as [Q6 _].
      apply Hfound in H. subst st'.
      repeat (etransitivity; [eassumption |]). reflexivity.
  - apply bind_inv in H as [(dashboards & st6 & H6 & H) | (? & _ & [=])].
    destruct (K5 _ _ _ _ _ H6) as [Q6 _].
    apply Hfound in H. subst st'. etransitivity; eassumption.
Qed.

End FalseRun.

Lemma false_run_writes_configuration_only_witness :
  let st' := snd (export_all mock_env sample_self false true false
                             (Some (lit "Dev")) None sample_state) in
  dirs st' = dirs sample_state /\
  forall k, k ∉ config_keys sample_self true false ->
            files st' !! k = files sample_state !! k.
Proof.
  intros st'.
  apply (false_run_writes_configuration_only mock_env sample_self false true false
           (Some (lit "Dev")) None sample_state st').
  apply run_returns. vm_compute. reflexivity.
Defined.


(** ** The report, again *)

Section ReportAgain.

Context (env : Env) (self : GrafanaExporter).







End ReportAgain.


(** ** Runs in which no dashboard can be fetched *)

Section NoDetail.

Context (env : Env) (self : GrafanaExporter) (include_permissions : bool).





End NoDetail.




(** ** Runs that return [True] *)

Lemma py_iter_length dashboards items total s s' s1 s1' :
  py_iter dashboards s = (Ret items, s') ->
  py_len dashboards s1 = (Ret total, s1') ->
  total = Z.of_nat (length items) /\ s' = s /\ s1' = s1.
Proof.
  destruct dashboards; intros Hiter Hlen; try discriminate Hiter;
    inversion Hiter; inversion Hlen; subst; rewrite ?length_fmap; repeat split.
Qed.

Section TrueRun.

Context (env : Env) (self : GrafanaExporter).

(** When [export_all] goes on from a dashboard list and returns [True],
    the report has been generated from a tally within bounds. *)
Lemma export_found_true_report dashboards folders include_permissions st st' :
  export_found env self dashboards folders include_permissions st = (Ret true, st') ->
  exists export_time total exported rest,
    1 <= total /\ 0 <= exported <= total /\
    report_lines self st' =
      summary_rows self export_time (Z.of_nat (length folders)) total exported ++ rest.
Proof.
  intros H. unfold export_found in H.
  destruct (truthy dashboards) eqn:Htrue; cbn [negb] in H; [| discriminate H].
  apply bind_inv in H as [(items & st0 & Hiter & H) | (? & _ & [=])].
  apply bind_inv in H as [(n & st1 & Heach & H) | (? & _ & [=])].
  apply bind_inv in H as [(total & st2 & Hlen & H) | (? & _ & [=])].
  apply bind_inv in H as [([] & st3 & Hreport & H) | (? & _ & [=])].
  injection H as <-.
  destruct (py_iter_length _ _ _ _ _ _ _ Hiter Hlen) as (Htotal & -> & ->).
  pose proof (py_len_truthy _ _ _ _ Htrue Hlen) as Hone.
  pose proof (export_each_bounds env self include_permissions _ _ _ _ _ Heach) as Hn.
  pose proof (wp_run _ _ _ _ _ (generate_report_wp env self n total folders st1) Hreport)
    as (_ & _ & _ & _ & Hrows).
  destruct (Hrows ltac:(lia)) as (_ & rest & Hfile).
  exists (now env (ticks st1)), total, n, rest.
  split; [exact Hone |]. split; [lia |].
  unfold report_lines. rewrite Hfile. reflexivity.
Qed.

Lemma export_all_true_found include_permissions include_datasources include_alerts
    folder_filter tag_filter st st' :
  export_all env self include_permissions include_datasources include_alerts
             folder_filter tag_filter st = (Ret true, st') ->
  exists dashboards folders st0,
    export_found env self dashboards folders include_permissions st0 = (Ret true, st').
Proof.
  intros H. unfold export_all in H.
  apply bind_inv in H as [(connected & st1 & _ & H) | (? & _ & [=])].
  destruct connected; cbn [negb] in H; [| discriminate H].
  apply bind_inv in H as [(folders & st2 & _ & H) | (? & _ & [=])].
  apply bind_inv in H as [(b1 & st3 & _ & H) | (? & _ & [=])].
  apply bind_inv in H as [(b2 & st4 & _ & H) | (? & _ & [=])].
  destruct (truthy_opt folder_filter).
  - apply bind_inv in H as [(folder_id & st5 & _ & H) | (? & _ & [=])].
    destruct (is_none folder_id); [discriminate H |].
    apply bind_inv in H as [(dashboards & st6 & _ & H) | (? & _ & [=])].
    eauto.
  - apply bind_inv in H as [(dashboards & st6 & _ & H) | (? & _ & [=])].
    eauto.
Qed.

(** X16.  A run of [export_all] that returns [True] has written the
    report: [export_report.md] starts with the summary table, in which the
    total is at least 1, the number of exported dashboards lies between 0
    and the total, and the row of failures is their difference. *)
Theorem true_run_has_written_the_report
    (include_permissions include_datasources include_alerts : bool)
    (folder_filter tag_filter : option str) (st st' : State) :
  export_all env self include_permissions include_datasources include_alerts
             folder_filter tag_filter st = (Ret true, st') ->
  exists export_time folders total exported rest,
    0 <= folders /\ 1 <= total /\ 0 <= exported <= total /\
    report_lines self st' =
      summary_rows self export_time folders total exported ++ rest.
Proof.
  intros H. apply export_all_true_found in H as (dashboards & folders & st0 & H).
  apply export_found_true_report in H
    as (export_time & total & exported & rest & Hone & Hbounds & Hlines).
  exists export_time, (Z.of_nat (length folders)), total, exported, rest.
  split; [lia |]. repeat split; try assumption; lia.
Qed.

End TrueRun.

Lemma true_run_has_written_the_report_witness :
  exists export_time folders total exported rest,
    0 <= folders /\ 1 <= total /\ 0 <= exported <= total /\
    report_lines sample_self
      (snd (export_all mock_env sample_self false true true None None sample_state)) =
      summary_rows sample_self export_time folders total exported ++ rest.
Proof.
  apply (true_run_has_written_the_report mock_env sample_self false true true None None
           sample_state).
  apply run_returns. vm_compute. reflexivity.
Defined.

(** ** The command line *)

(** X17.  The exit status of [main].  It is 0 or 1.  Without an API key
    it is 1 and nothing is done: no directory is made and no call is sent.
    It is 0 only when [export_all] returned [True] for the exporter made
    from the arguments, and then the report of the session holds the
    summary table with a total of at least 1; a run that returns [False]
    or raises gives the status 1. *)
Theorem main_exit_status (env : Env) (args : Args) (st : State) :
  (fst (main env args st) = 0 \/ fst (main env args st) = 1) /\
  (arg_api_key args = [] -> main env args st = (1, st)) /\
  (fst (main env args st) = 0 ->
   exists exporter st1,
     new_exporter env (arg_url args) (arg_api_key args) (arg_output args)
                  (arg_timeout args) st = (Ret exporter, st1) /\
     export_all env exporter (arg_include_permissions args)
                (negb (arg_no_datasources args)) (negb (arg_no_alerts args))
                (arg_folder args) (arg_tag args) st1
       = (Ret true, snd (main env args st)) /\
     exists export_time folders total exported rest,
       1 <= total /\ 0 <= exported <= total /\
       report_lines exporter (snd (main env args st)) =
         summary_rows exporter export_time folders total exported ++ rest).
Proof.
  unfold main. destruct (arg_api_key args) as [| c key] eqn:Hkey.
  { split; [right; reflexivity |]. split; [reflexivity | discriminate]. }
  destruct (main_run env args st) as [[success | e] st'] eqn:Hrun; cbn [fst snd].
  - split; [destruct success; auto |]. split; [discriminate |].
    destruct success; [intros _ | discriminate].
    unfold main_run in Hrun. rewrite Hkey in Hrun.
    apply bind_inv in Hrun as [(exporter & st1 & Hnew & Hrun) | (? & _ & [=])].
    exists exporter, st1. split; [exact Hnew |]. split; [exact Hrun |].
    apply export_all_true_found in Hrun as (dashboards & folders & st0 & Hfound).
    apply export_found_true_report in Hfound
      as (export_time & total & exported & rest & Hone & Hbounds & Hlines).
    exists export_time, (Z.of_nat (length folders)), total, exported, rest.
    repeat split; try assumption; lia.
  - split; [right; reflexivity |]. split; discriminate.
Qed.

Lemma main_exit_status_witness :
  main mock_env (mkArgs (lit "http://localhost:3000") [] (lit "out") 30
                        None None false false false false) initial_state
    = (1, initial_state) /\
  exists export_time folders total exported rest,
    1 <= total /\ 0 <= exported <= total /\
    report_lines sample_self (snd (main mock_env sample_args initial_state)) =
      summary_rows sample_self export_time folders total exported ++ rest.
Proof.
  split.
  - destruct (main_exit_status mock_env
                (mkArgs (lit "http://localhost:3000") [] (lit "out") 30
                        None None false false false false) initial_state)
      as (_ & Hkey & _).
    apply Hkey. reflexivity.
  - destruct (main_exit_status mock_env sample_args initial_state) as (_ & _ & Hzero).
    destruct (Hzero ltac:(vm_compute; reflexivity))
      as (exporter & st1 & Hnew & _ & Hreport).
    assert (Hself : (Ret exporter, st1) = (Ret sample_self, sample_state)).
    { rewrite <- Hnew. vm_compute. reflexivity. }
    injection Hself as -> _. exact Hreport.
Defined.


(** ** The constructor *)

Lemma lstrip_char_spec (c : N) (s : str) :
  exists k, s = replicate k c ++ lstrip_char c s /\ head (lstrip_char c s) <> Some c.
Proof.
  induction s as [| x s (k & Hs & Hhead)]; cbn [lstrip_char].
  - exists 0%nat. split; [reflexivity | discriminate].
  - destruct (decide (x = c)) as [-> | Hne].
    + rewrite bool_decide_eq_true_2 by reflexivity.
      exists (S k). split; [cbn [replicate app]; f_equal; exact Hs | exact Hhead].
    + rewrite bool_decide_eq_false_2 by exact Hne.
      exists 0%nat. split; [reflexivity |]. cbn. intros [= E]. exact (Hne E).
Qed.

Lemma rstrip_slash_spec (s : str) :
  exists k, s = rstrip_slash s ++ replicate k slash /\ last (rstrip_slash s) <> Some slash.
Proof.
  unfold rstrip_slash.
  destruct (lstrip_char_spec slash (reverse s)) as (k & Hs & Hhead).
  exists k. split.
  - rewrite <- (reverse_involutive s) at 1. rewrite Hs at 1.
    rewrite reverse_app, reverse_replicate. reflexivity.
  - rewrite last_reverse. exact Hhead.
Qed.

Lemma session_name_proper (timestamp : str) :
  slash ∉ timestamp -> proper_name (lit "export_" ++ timestamp).
Proof.
  intros Hslash. split; [discriminate |]. split; [discriminate |].
  split; [discriminate |].
  intros Hin. apply elem_of_app in Hin as [Hin | Hin]; [| exact (Hslash Hin)].
  revert Hin. apply not_elem_of_computed. reflexivity.
Qed.

(** X18.  What [__init__] leaves.  The session directory is
    [export_<timestamp>] in the output directory and exists afterwards,
    with the directories that were there before; no file is written and no
    call is sent; the URL of the session is the URL given without its
    trailing slashes. *)
Theorem new_exporter_makes_the_session_directory
    (env : Env) (url0 api_key0 output : str) (timeout0 : Z) (st : State) :
  slash ∉ now env (ticks st) ->
  exists self st',
    new_exporter env url0 api_key0 output timeout0 st = (Ret self, st') /\
    export_dir self = joinpath [] output ++ [lit "export_" ++ now env (ticks st)] /\
    is_dir st' (export_dir self) = true /\
    dirs st ⊆ dirs st' /\
    files st' = files st /\ requests st' = requests st /\
    (exists k, url0 = url self ++ replicate k slash) /\
    last (url self) <> Some slash.
Proof.
  intros Hslash. pose proof (session_name_proper _ Hslash) as Hname.
  exists (mkExporter (rstrip_slash url0) api_key0 (joinpath [] output) timeout0
            (joinpath (joinpath [] output) (lit "export_" ++ now env (ticks st)))),
         (snd (new_exporter env url0 api_key0 output timeout0 st)).
  split; [reflexivity |].
  unfold new_exporter, bind, read_clock, mkdir_parents, ret.
  cbn [fst snd export_dir url dirs files requests ticks].
  rewrite (joinpath_proper _ _ Hname).
  split; [reflexivity |]. split; [| split; [| split; [| split; [| split]]]].
  - unfold is_dir. apply bool_decide_eq_true. cbn [dirs].
    rewrite resolve_one_name by apply Hname.
    apply elem_of_union_l, elem_of_list_to_set, list_elem_of_fmap.
    exists (length (resolve (joinpath [] output) ++ [lit "export_" ++ now env (ticks st)])).
    split; [symmetry; apply firstn_all |].
    apply elem_of_seq. rewrite !length_app. cbn [length]. lia.
  - apply union_subseteq_r.
  - reflexivity.
  - reflexivity.
  - destruct (rstrip_slash_spec url0) as (k & Hk & _). exists k. exact Hk.
  - destruct (rstrip_slash_spec url0) as (k & _ & Hlast). exact Hlast.
Qed.

Lemma new_exporter_makes_the_session_directory_witness :
  exists self st',
    new_exporter flaky_env (lit "http://localhost:3000//") (lit "secret")
                 (lit "./grafana-exports") 30 initial_state = (Ret self, st') /\
    export_dir self =
      joinpath [] (lit "./grafana-exports")
        ++ [lit "export_" ++ now flaky_env (ticks initial_state)] /\
    is_dir st' (export_dir self) = true /\
    dirs initial_state ⊆ dirs st' /\
    files st' = files initial_state /\ requests st' = requests initial_state /\
    (exists k, lit "http://localhost:3000//" = url self ++ replicate k slash) /\
    last (url self) <> Some slash.
Proof.
  apply (new_exporter_makes_the_session_directory flaky_env
           (lit "http://localhost:3000//") (lit "secret") (lit "./grafana-exports") 30
           initial_state).
  apply not_elem_of_computed. vm_compute. reflexivity.
Defined.

(** ** The folder filter *)


